(** * pybase: a shallow embedding of [pybase.py] and its specification

    The development follows the source file top to bottom:
    - Python values, exceptions and the two effect layers (pure code that
      may raise, and methods of [App] that also change the process);
    - [str.find], the environment probe and the relaunch of
      [oracle_decorator.wrapper];
    - the Oracle session ([oracle_connect], [oracle_disconnect]);
    - the row factory ([oracle_row_factory]);
    - the constructor, the commands and [App.run];
    - the theorems, one group per part of the specification. *)

From Stdlib Require Import ZArith Ascii.
From Stdlib Require String.
From stdpp Require Import base option list gmap strings pretty fin_maps.

Local Open Scope Z_scope.

(** String concatenation computes under [simpl] in this file. *)
#[local] Arguments String.append : simpl nomatch.

(** ** Python values and exceptions *)

(** The values that flow through the modelled code: [None], booleans,
    integers (the result of [str.find]) and strings. *)
Inductive pyval :=
| PyNone
| PyBool (b : bool)
| PyInt (n : Z)
| PyStr (s : string).

#[global] Instance pyval_eq_dec : EqDecision pyval.
Proof. solve_decision. Defined.

(** Truth value of an object, as [if], [and] and [or] test it. *)
Definition truthy (v : pyval) : bool :=
  match v with
  | PyNone => false
  | PyBool b => b
  | PyInt n => negb (n =? 0)
  | PyStr s => negb (String.eqb s "")
  end.

(** The exceptions the modelled code can meet.  [SystemExit] (raised by
    [argparse] on a bad command line) derives from [BaseException] only,
    so that [except Exception] lets it through. *)
Inductive exn :=
| AttributeError (msg : string)
| KeyError (key : string)
| TypeError (msg : string)
| RuntimeError (msg : string)
| ImportError (msg : string)
| OSError (msg : string)
| InterfaceError (msg : string)
| DatabaseError (msg : string)
| SMTPException (msg : string)
| SystemExit (code : Z).

#[global] Instance exn_eq_dec : EqDecision exn.
Proof. solve_decision. Defined.

Definition is_Exception (e : exn) : bool :=
  match e with
  | SystemExit _ => false
  | _ => true
  end.

(** [str(e)] *)
Definition exn_str (e : exn) : string :=
  match e with
  | AttributeError m | TypeError m | RuntimeError m | ImportError m
  | OSError m | InterfaceError m | DatabaseError m | SMTPException m => m
  | KeyError k => "'" +:+ k +:+ "'"
  | SystemExit c => pretty c
  end.

(** Pure code that may raise. *)
Inductive result (A : Type) :=
| Ok (a : A)
| Err (e : exn).
Arguments Ok {A} a.
Arguments Err {A} e.

#[global] Instance result_ret : MRet result := fun A a => Ok a.
#[global] Instance result_bind : MBind result := fun A B f r =>
  match r with
  | Ok a => f a
  | Err e => Err e
  end.

(** ** Strings: [str.find] and [str.lower] *)

(** [s.find(sub)]: the lowest index at which [sub] occurs in [s], or [-1]. *)
Fixpoint find_from (i : Z) (s sub : string) : Z :=
  if String.prefix sub s then i
  else match s with
       | EmptyString => -1
       | String _ s' => find_from (i + 1) s' sub
       end.

Definition str_find (s sub : string) : Z := find_from 0 s sub.

(** What "[p] contains [m] as a substring" means. *)
Definition contains (p m : string) : Prop :=
  ∃ pre post, p = pre +:+ m +:+ post.

(** [c.lower()] on the ASCII letters; other characters are unchanged. *)
Definition ascii_lower (c : ascii) : ascii :=
  let n := N_of_ascii c in
  if ((65 <=? n) && (n <=? 90))%N then ascii_of_N (n + 32) else c.

Fixpoint str_lower (s : string) : string :=
  match s with
  | EmptyString => EmptyString
  | String c s' => String (ascii_lower c) (str_lower s')
  end.

(** ** The process environment and the probe *)

(** [os.environ.get(k)]: the value, or [None]. *)
Definition environ_get (environ : gmap string string) (k : string) : pyval :=
  match environ !! k with
  | Some v => PyStr v
  | None => PyNone
  end.

(** [v.find(sub)] on an object: only strings have the method. *)
Definition py_find (v : pyval) (sub : string) : result Z :=
  match v with
  | PyStr s => Ok (str_find s sub)
  | PyNone => Err (AttributeError "'NoneType' object has no attribute 'find'")
  | PyBool _ => Err (AttributeError "'bool' object has no attribute 'find'")
  | PyInt _ => Err (AttributeError "'int' object has no attribute 'find'")
  end.

(** [os.name == name and os.environ.get(var) and
     os.environ.get(var).find(marker) != -1], with the short circuit
    of [and]: the value of the first falsy operand, else of the last. *)
Definition path_has (os_name name var : string)
    (environ : gmap string string) (marker : string) : result pyval :=
  if String.eqb os_name name then
    let p := environ_get environ var in
    if truthy p then
      i ← py_find (environ_get environ var) marker;
      mret (PyBool (negb (i =? -1)))
    else mret p
  else mret (PyBool false).

(** [ora_check] of [oracle_decorator.wrapper] (lines 235-239):
    [a or b or c], each operand evaluated only when the previous ones
    are falsy. *)
Definition ora_check (os_name : string) (environ : gmap string string)
    (ora_client_path : string) : result pyval :=
  if String.eqb ora_client_path "" then mret (PyBool true)
  else
    a ← path_has os_name "nt" "PATH" environ ora_client_path;
    if truthy a then mret a
    else path_has os_name "posix" "LD_LIBRARY_PATH" environ ora_client_path.

(** The variable the wrapper reads on each platform. *)
Definition search_path_var (os_name : string) : string :=
  if String.eqb os_name "nt" then "PATH" else "LD_LIBRARY_PATH".

(** The environment after the [else] branch of the wrapper
    (lines 254-265), before [os.execv]. *)
Definition extend_var (var : string) (environ : gmap string string)
    (ora_client_path : string) : gmap string string :=
  if truthy (environ_get environ var) then
    match environ !! var with
    | Some old => <[var := old +:+ ";" +:+ ora_client_path]> environ
    | None => environ
    end
  else <[var := ora_client_path]> environ.

Definition relaunch_environ (os_name : string) (environ : gmap string string)
    (ora_client_path : string) : gmap string string :=
  if String.eqb os_name "nt" then extend_var "PATH" environ ora_client_path
  else extend_var "LD_LIBRARY_PATH" environ ora_client_path.

(** ** The row factory *)

(** One entry of [cursor.description]; [d[0]] is the column name. *)
Record column_desc := {
  cd_name : string;
  cd_type : string;
  cd_null_ok : bool
}.

(** [dict(pairs)]: the pairs are inserted from left to right, so that a
    later pair replaces an earlier one with the same key. *)
Definition dict_of (pairs : list (string * pyval)) : gmap string pyval :=
  foldl (λ d kv, <[kv.1 := kv.2]> d) ∅ pairs.

(** [a if a is not None else ''] *)
Definition null_to_empty (a : pyval) : pyval :=
  match a with
  | PyNone => PyStr ""
  | _ => a
  end.

(** [[d[0].lower() for d in cursor.description]] *)
Definition column_names (description : list column_desc) : list string :=
  (λ d, str_lower (cd_name d)) <$> description.

(** [App.oracle_row_factory] (lines 298-320): the column names are
    computed once, [create_row] is the function returned. *)
Definition oracle_row_factory (description : list column_desc)
    : list pyval → gmap string pyval :=
  let names := column_names description in
  λ args, dict_of (zip names (null_to_empty <$> args)).

(** ** The process: state, events and the effect layer of the methods *)

(** A connection or a cursor of the driver. *)
Definition handle := nat.

(** [argparse.Namespace] as built by [__create_args]. *)
Record namespace := {
  ns_debug : bool;
  ns_command : string;
  ns_cmd2_arg1 : string;
  ns_pos_arg : string
}.

(** The message handed to [smtplib]. *)
Record email_message := {
  em_host : string;
  em_subject : string;
  em_from : string;
  em_to : string;
  em_priority : string;
  em_content : string
}.

(** What the program does to the outside, in the order it does it. *)
Inductive event :=
| EvReadConfig (path : string)
| EvParseArgs
| EvCreateLogger (debug : bool)
| EvLogInfo (msg : string)
| EvLogException (msg : string) (e : exn)
| EvPrint (msg : string)
| EvImport (module : string)
| EvConnect (dsn : string) (con : handle)
| EvCursor (con cur : handle)
| EvExecute (cur : handle) (sql : string)
| EvFetchone (cur : handle)
| EvCommit (con : handle)
| EvCursorClose (cur : handle)
| EvConnectionClose (con : handle)
| EvSendMessage (msg : email_message).

(** The attributes of [self], the process environment, the driver's
    objects (with their open flag) and the events so far. *)
Record state := {
  environ : gmap string string;
  cfg : gmap string (gmap string string);
  args : namespace;
  ora_con : option handle;
  ora_select_cur : option handle;
  ora_update_cur : option handle;
  objects : gmap handle bool;
  trace : list event
}.

(** How a statement ends: normally, with an exception, or with the
    process image replaced by [os.execv]. *)
Inductive outcome (A : Type) :=
| Ret (a : A)
| Raise (e : exn)
| Execv (path : string) (argv : list string).
Arguments Ret {A} a.
Arguments Raise {A} e.
Arguments Execv {A} path argv.

Definition M (A : Type) : Type := state → outcome A * state.

#[global] Instance M_ret : MRet M := fun A a s => (Ret a, s).
#[global] Instance M_bind : MBind M := fun A B f m s =>
  match m s with
  | (Ret a, s') => f a s'
  | (Raise e, s') => (Raise e, s')
  | (Execv p a, s') => (Execv p a, s')
  end.

Definition raise {A} (e : exn) : M A := fun s => (Raise e, s).
Definition get : M state := fun s => (Ret s, s).
Definition put (s : state) : M unit := fun _ => (Ret tt, s).

Definition lift {A} (r : result A) : M A :=
  match r with
  | Ok a => mret a
  | Err e => raise e
  end.

(** [try: body except Exception as e: handler(e)] *)
Definition try_except (body : M unit) (handler : exn → M unit) : M unit :=
  fun s =>
    match body s with
    | (Raise e, s') => if is_Exception e then handler e s' else (Raise e, s')
    | r => r
    end.

Definition emit (ev : event) : M unit := fun s =>
  (Ret tt,
   {| environ := environ s; cfg := cfg s; args := args s;
      ora_con := ora_con s; ora_select_cur := ora_select_cur s;
      ora_update_cur := ora_update_cur s; objects := objects s;
      trace := trace s ++ [ev] |}).

Definition set_environ (env : gmap string string) : M unit := fun s =>
  (Ret tt,
   {| environ := env; cfg := cfg s; args := args s;
      ora_con := ora_con s; ora_select_cur := ora_select_cur s;
      ora_update_cur := ora_update_cur s; objects := objects s;
      trace := trace s |}).

Definition set_cfg (c : gmap string (gmap string string)) : M unit := fun s =>
  (Ret tt,
   {| environ := environ s; cfg := c; args := args s;
      ora_con := ora_con s; ora_select_cur := ora_select_cur s;
      ora_update_cur := ora_update_cur s; objects := objects s;
      trace := trace s |}).

Definition set_args (a : namespace) : M unit := fun s =>
  (Ret tt,
   {| environ := environ s; cfg := cfg s; args := a;
      ora_con := ora_con s; ora_select_cur := ora_select_cur s;
      ora_update_cur := ora_update_cur s; objects := objects s;
      trace := trace s |}).

(** [self.ora_con, self.ora_select_cur, self.ora_update_cur = c, r, u] *)
Definition set_session (c r u : option handle) : M unit := fun s =>
  (Ret tt,
   {| environ := environ s; cfg := cfg s; args := args s;
      ora_con := c; ora_select_cur := r; ora_update_cur := u;
      objects := objects s; trace := trace s |}).

Definition set_objects (o : gmap handle bool) : M unit := fun s =>
  (Ret tt,
   {| environ := environ s; cfg := cfg s; args := args s;
      ora_con := ora_con s; ora_select_cur := ora_select_cur s;
      ora_update_cur := ora_update_cur s; objects := o;
      trace := trace s |}).

(** [self.cfg[section][key]] *)
Definition cfg_get (section key : string) : M string := fun s =>
  match cfg s !! section with
  | None => (Raise (KeyError section), s)
  | Some sec =>
      match sec !! key with
      | None => (Raise (KeyError key), s)
      | Some v => (Ret v, s)
      end
  end.

(** The value of [c[section][key]] when both keys are there. *)
Definition cfg_lookup (c : gmap string (gmap string string))
    (section key : string) : option string :=
  sec ← c !! section; sec !! key.

(** ** The driver's objects *)

(** [cursor.close()]: closing a cursor that is not open is an
    [InterfaceError] of the driver; [None] has no such method. *)
Definition cursor_close (cur : option handle) : M unit :=
  match cur with
  | None => raise (AttributeError "'NoneType' object has no attribute 'close'")
  | Some h =>
      s ← get;
      match objects s !! h with
      | Some true =>
          emit (EvCursorClose h);;
          set_objects (<[h := false]> (objects s))
      | _ => raise (InterfaceError "not open")
      end
  end.

(** [connection.close()] *)
Definition connection_close (con : option handle) : M unit :=
  match con with
  | None => raise (AttributeError "'NoneType' object has no attribute 'close'")
  | Some h =>
      s ← get;
      match objects s !! h with
      | Some true =>
          emit (EvConnectionClose h);;
          set_objects (<[h := false]> (objects s))
      | _ => raise (InterfaceError "not connected")
      end
  end.

(** [connection.commit()] *)
Definition connection_commit (con : option handle) : M unit :=
  match con with
  | None => raise (AttributeError "'NoneType' object has no attribute 'commit'")
  | Some h =>
      s ← get;
      match objects s !! h with
      | Some true => emit (EvCommit h)
      | _ => raise (InterfaceError "not connected")
      end
  end.

(** A new object of the driver: the first handle not in use. *)
Definition new_object : M handle :=
  s ← get;
  let h := fresh (dom (objects s)) in
  set_objects (<[h := true]> (objects s));;
  mret h.

(** [App.oracle_disconnect] (lines 288-295) *)
Definition oracle_disconnect (commit : bool) : M unit :=
  (if commit then
     s ← get; connection_commit (ora_con s)
   else mret tt);;
  s ← get; cursor_close (ora_update_cur s);;
  s ← get; cursor_close (ora_select_cur s);;
  s ← get; connection_close (ora_con s).

(** An open session: a connection and two cursors of their own, all three
    open. *)
Definition session_open (s : state) (con select_cur update_cur : handle)
    : Prop :=
  ora_con s = Some con ∧ ora_select_cur s = Some select_cur ∧
  ora_update_cur s = Some update_cur ∧
  objects s !! con = Some true ∧ objects s !! select_cur = Some true ∧
  objects s !! update_cur = Some true ∧
  con ≠ select_cur ∧ con ≠ update_cur ∧ select_cur ≠ update_cur.

(** A session after its close: the attributes still name the three
    objects, none of which is open. *)
Definition session_closed (s : state) (con select_cur update_cur : handle)
    : Prop :=
  ora_con s = Some con ∧ ora_select_cur s = Some select_cur ∧
  ora_update_cur s = Some update_cur ∧
  objects s !! con = Some false ∧ objects s !! select_cur = Some false ∧
  objects s !! update_cur = Some false.

(** A method call that ends with an exception. *)
Definition raises {A} (m : M A) (s : state) : Prop :=
  ∃ e s', m s = (Raise e, s').

(** A session that was never opened: the attributes are as [__init__]
    leaves them. *)
Definition session_unset (s : state) : Prop :=
  ora_con s = None ∧ ora_select_cur s = None ∧ ora_update_cur s = None.

(** The events that release a resource of the session. *)
Definition is_release (ev : event) : bool :=
  match ev with
  | EvCursorClose _ | EvConnectionClose _ => true
  | _ => false
  end.

(** ** What the program meets outside itself *)

(** The platform, the command line, the files and the servers: fixed for
    one run of the program.  The constants of the modules [maildata] and
    [oradata] are fields too. *)
Record world := {
  os_name : string;
  IsUserAnAdmin : Z;
  getuid : Z;
  sys_executable : string;
  sys_argv0 : string;
  sys_argv_rest : list string;
  program_dir : string;
  program_file_stem : string;
  config_contents : gmap string (gmap string string);
  parse_args : result namespace;
  file_handler : option exn;
  import_cx_Oracle : option exn;
  connect : option exn;
  execute : option exn;
  description : list column_desc;
  fetched : option (list pyval);
  smtp_connect : option exn;
  send_message : option exn;
  execv : option exn;
  elapsed : string;
  format_exc : exn → string;
  NOTIFY_TEXT : string → string → string → string;
  ORA_SELECT_FROM_DUAL_SQL : string
}.

Definition sys_argv (w : world) : list string :=
  sys_argv0 w :: sys_argv_rest w.

(** An outside call that either succeeds or raises. *)
Definition attempt (r : option exn) : M unit :=
  match r with
  | None => mret tt
  | Some e => raise e
  end.

(** [repr] of a list of strings, as ['{0}'.format(sys.argv)] prints it. *)
Definition repr_argv (l : list string) : string :=
  "[" +:+ String.concat ", " ((λ a, "'" +:+ a +:+ "'") <$> l) +:+ "]".

Section App.

Context (w : world).

(** *** Utilities *)

(** [is_admin] of [App.check_admin] (lines 205-208) *)
Definition is_admin : bool :=
  if String.eqb (os_name w) "nt" then negb (IsUserAnAdmin w =? 0)
  else getuid w =? 0.

(** [App.check_admin] (lines 203-211) *)
Definition check_admin : M unit :=
  if is_admin then raise (RuntimeError "Error! User has admin/root rights!")
  else mret tt.

(** [App.send_mail] (lines 183-200) *)
Definition send_mail (mail_host email_from email_to subject message
    priority : string) : M unit :=
  attempt (smtp_connect w);;
  attempt (send_message w);;
  emit (EvSendMessage {| em_host := mail_host; em_subject := subject;
                         em_from := email_from; em_to := email_to;
                         em_priority := priority; em_content := message |}).

(** [os.execv(path, argv)]: on success nothing of this process is left. *)
Definition os_execv (path : string) (argv : list string) : M unit :=
  match execv w with
  | Some e => raise e
  | None => fun s => (Execv path argv, s)
  end.

(** *** Oracle functions *)

(** [oracle_decorator.wrapper] (lines 232-266), around [func]. *)
Definition oracle_decorator (func : M unit) : M unit :=
  ora_client_path ← cfg_get "oracle" "ic_path";
  s ← get;
  ora_check_value ← lift (ora_check (os_name w) (environ s) ora_client_path);
  if truthy ora_check_value then
    attempt (import_cx_Oracle w);;
    emit (EvImport "cx_Oracle");;
    func
  else if String.eqb (os_name w) "nt" then
    set_environ (extend_var "PATH" (environ s) ora_client_path);;
    os_execv (sys_executable w) (sys_executable w :: sys_argv w)
  else
    set_environ (extend_var "LD_LIBRARY_PATH" (environ s) ora_client_path);;
    os_execv (sys_argv0 w) (sys_argv w).

(** The body of [App.oracle_connect] (lines 271-286). *)
Definition oracle_connect_body : M unit :=
  login ← cfg_get "oracle" "login";
  host ← cfg_get "oracle" "host";
  sid ← cfg_get "oracle" "sid";
  emit (EvLogInfo ("Init Oracle. Database - "
                   +:+ login +:+ "@" +:+ host +:+ "/" +:+ sid));;
  u ← cfg_get "oracle" "login";
  p ← cfg_get "oracle" "password";
  h ← cfg_get "oracle" "host";
  s ← cfg_get "oracle" "sid";
  attempt (connect w);;
  con ← new_object;
  emit (EvConnect (u +:+ "/" +:+ p +:+ "@" +:+ h +:+ "/" +:+ s) con);;
  select_cur ← new_object;
  emit (EvCursor con select_cur);;
  update_cur ← new_object;
  emit (EvCursor con update_cur);;
  set_session (Some con) (Some select_cur) (Some update_cur).

Definition oracle_connect : M unit := oracle_decorator oracle_connect_body.

(** [cursor.execute(sql)] *)
Definition cursor_execute (cur : option handle) (sql : string) : M unit :=
  match cur with
  | None => raise (AttributeError "'NoneType' object has no attribute 'execute'")
  | Some h =>
      s ← get;
      match objects s !! h with
      | Some true => attempt (execute w);; emit (EvExecute h sql)
      | _ => raise (InterfaceError "not open")
      end
  end.

(** [cursor.fetchone()] with [rowfactory] installed: the next row through
    the factory, or [None] when there is no row. *)
Definition cursor_fetchone (cur : option handle)
    (rowfactory : list pyval → gmap string pyval)
    : M (option (gmap string pyval)) :=
  match cur with
  | None => raise (AttributeError "'NoneType' object has no attribute 'fetchone'")
  | Some h =>
      s ← get;
      match objects s !! h with
      | Some true => emit (EvFetchone h);; mret (rowfactory <$> fetched w)
      | _ => raise (InterfaceError "not open")
      end
  end.

(** *** Main functions *)

(** [App.cmd1] (lines 324-329) *)
Definition cmd1 : M unit :=
  emit (EvLogInfo ">>>>> Begin cmd1() <<<<<");;
  s ← get;
  emit (EvPrint ("Hello cmd1! Positional argument - " +:+ ns_pos_arg (args s)));;
  emit (EvLogInfo ">>>>> End cmd1() <<<<<").

(** [App.cmd2] (lines 331-338) under [timer_decorator] (lines 173-179) *)
Definition cmd2 : M unit :=
  emit (EvLogInfo ">>>>> Begin cmd2() <<<<<");;
  s ← get;
  emit (EvPrint ("Hello cmd2! Cmd2 arg - " +:+ ns_cmd2_arg1 (args s)
                 +:+ ". Positional argument - " +:+ ns_pos_arg (args s)));;
  emit (EvPrint "See time elapsed!");;
  emit (EvLogInfo ">>>>> End cmd2() <<<<<");;
  emit (EvLogInfo ("Time elapsed (sec): " +:+ elapsed w)).

(** [App.cmd3] (lines 340-354) *)
Definition cmd3 : M unit :=
  emit (EvLogInfo ">>>>> Begin cmd3() <<<<<");;
  s ← get;
  cursor_execute (ora_select_cur s) (ORA_SELECT_FROM_DUAL_SQL w);;
  s ← get;
  res ← cursor_fetchone (ora_select_cur s)
          (oracle_row_factory (description w));
  match res with
  | None => raise (TypeError "argument of type 'NoneType' is not iterable")
  | Some row =>
      if decide (is_Some (row !! "column1"))
      then emit (EvPrint "Test Oracle - OK")
      else emit (EvPrint "Test Oracle - ERROR")
  end;;
  emit (EvLogInfo ">>>>> End cmd3() <<<<<").

(** The [except] clause of [App.run] (lines 77-92). *)
Definition run_except (e : exn) : M unit :=
  emit (EvLogException ("EXCEPTION - " +:+ exn_str e) e);;
  program ← cfg_get "main" "program";
  let subject := "EXCEPTION - " +:+ program in
  from_name ← cfg_get "main" "program";
  let text := NOTIFY_TEXT w from_name "EXCEPTION" (format_exc w e +:+ ".") in
  mail_host ← cfg_get "email" "mail_host";
  email_from ← cfg_get "email" "sender_mail";
  email_to ← cfg_get "email" "sender_mail";
  send_mail mail_host email_from email_to subject text "1".

(** The [try] block of [App.run] (lines 67-76). *)
Definition run_try : M unit :=
  s ← get;
  let command := ns_command (args s) in
  if String.eqb command "cmd1" then cmd1
  else if String.eqb command "cmd2" then cmd2
  else if String.eqb command "cmd3" then
    oracle_connect;;
    cmd3;;
    oracle_disconnect false
  else emit (EvPrint "Command not supported").

(** [App.run] (lines 64-92) *)
Definition run : M unit := try_except run_try run_except.

(** *** Init functions *)

(** [App.__create_logger] (lines 117-162): the handlers are created in
    the order console, info file, syslog, debug file. *)
Definition create_logger : M unit :=
  s ← get;
  _ ← cfg_get "main" "log_dir";
  attempt (file_handler w);;
  enable ← cfg_get "syslog" "syslog_enable";
  (if String.eqb enable "Y" then
     _ ← cfg_get "syslog" "syslog_pname";
     _ ← cfg_get "syslog" "syslog_server";
     mret tt
   else mret tt);;
  (if ns_debug (args s) then
     _ ← cfg_get "main" "log_dir";
     attempt (file_handler w)
   else mret tt);;
  emit (EvCreateLogger (ns_debug (args s))).

(** [App.__init__] (lines 29-58) *)
Definition App_init : M unit :=
  set_session None None None;;
  check_admin;;
  emit (EvReadConfig (program_dir w +:+ "/" +:+ program_file_stem w +:+ ".ini"));;
  set_cfg (config_contents w);;
  a ← lift (parse_args w);
  emit EvParseArgs;;
  set_args a;;
  create_logger;;
  program ← cfg_get "main" "program";
  emit (EvLogInfo ("Start " +:+ program));;
  emit (EvLogInfo ("Command line - " +:+ repr_argv (sys_argv w))).

(** The [__main__] block (lines 364-366). *)
Definition main : M unit := App_init;; run.

End App.

(** ** The process as seen from outside *)

(** The state a fresh interpreter starts in, given the environment it
    inherits. *)
Definition initial_state (env : gmap string string) : state :=
  {| environ := env; cfg := ∅;
     args := {| ns_debug := false; ns_command := ""; ns_cmd2_arg1 := "";
                ns_pos_arg := "" |};
     ora_con := None; ora_select_cur := None; ora_update_cur := None;
     objects := ∅; trace := [] |}.

(** How the process ends: with an exit status, or replaced by another
    image that inherits the environment. *)
Inductive termination :=
| Exited (status : Z)
| Replaced (path : string) (argv : list string) (env : gmap string string).

(** An uncaught exception ends the interpreter with status 1,
    [SystemExit] with its own code, a normal end with 0. *)
Definition terminate (r : outcome unit * state) : termination :=
  match r with
  | (Ret _, _) => Exited 0
  | (Raise (SystemExit c), _) => Exited c
  | (Raise _, _) => Exited 1
  | (Execv path argv, s) => Replaced path argv (environ s)
  end.

Definition program (w : world) (env : gmap string string) : termination :=
  terminate (main w (initial_state env)).

(** The chain of processes started by one invocation: the number of
    relaunches and the way the last process ends.  The relaunched image
    is the same program under the same command line, in the environment
    left by its predecessor. *)
Fixpoint invocation (fuel : nat) (w : world) (env : gmap string string)
    : option (nat * Z) :=
  match fuel with
  | O => None
  | S fuel' =>
      match program w env with
      | Exited status => Some (O, status)
      | Replaced _ _ env' =>
          match invocation fuel' w env' with
          | Some (n, status) => Some (S n, status)
          | None => None
          end
      end
  end.

(** ** Properties of methods *)

(** A method that never replaces the process image. *)
Definition no_exec {A} (m : M A) : Prop :=
  ∀ s p a, (m s).1 ≠ Execv p a.

(** A method that leaves one component of the state as it found it. *)
Definition keeps {A B} (f : state → B) (m : M A) : Prop :=
  ∀ s, f (m s).2 = f s.

(** A method that releases nothing: the events it adds are no releases. *)
Definition quiet {A} (m : M A) : Prop :=
  ∀ s, ∃ evs, trace (m s).2 = trace s ++ evs ∧
              Forall (λ ev, is_release ev = false) evs.

(** The session as the state holds it. *)
Definition session_of (s : state)
    : option handle * option handle * option handle * gmap handle bool :=
  (ora_con s, ora_select_cur s, ora_update_cur s, objects s).

(** The state with another environment. *)
Definition with_environ (env : gmap string string) (s : state) : state :=
  (set_environ env s).2.

(** ** A sample installation *)

Definition sample_config (ic_path : string) : gmap string (gmap string string) :=
  {[ "main" := {[ "program" := "pybase"; "log_dir" := "/var/log/pybase" ]};
     "syslog" := {[ "syslog_enable" := "N" ]};
     "email" := {[ "mail_host" := "mail.example.com";
                   "sender_mail" := "pybase@example.com" ]};
     "oracle" := {[ "ic_path" := ic_path; "login" := "scott";
                    "password" := "tiger"; "host" := "dbhost";
                    "sid" := "orcl" ]} ]}.

(** A POSIX or Windows host, the command [cmd3], all servers up; [uid]
    is the user's number and [row] what the query returns. *)
Definition sample_world (os : string) (uid : Z) (ic_path : string)
    (row : option (list pyval)) : world :=
  {| os_name := os;
     IsUserAnAdmin := 0;
     getuid := uid;
     sys_executable := "/usr/bin/python3";
     sys_argv0 := "/opt/pybase/pybase.py";
     sys_argv_rest := ["cmd3"; "x"];
     program_dir := "/opt/pybase";
     program_file_stem := "pybase";
     config_contents := sample_config ic_path;
     parse_args := Ok {| ns_debug := false; ns_command := "cmd3";
                         ns_cmd2_arg1 := ""; ns_pos_arg := "x" |};
     file_handler := None;
     import_cx_Oracle := None;
     connect := None;
     execute := None;
     description := [{| cd_name := "COLUMN1"; cd_type := "STRING";
                        cd_null_ok := true |}];
     fetched := row;
     smtp_connect := None;
     send_message := None;
     execv := None;
     elapsed := "0.0";
     format_exc := λ e, "Traceback (most recent call last): " +:+ exn_str e;
     NOTIFY_TEXT := λ from_name subject text,
       from_name +:+ ": " +:+ subject +:+ " " +:+ text;
     ORA_SELECT_FROM_DUAL_SQL := "select 'X' column1 from dual" |}.

(** The sample installation on POSIX, the client directory configured,
    one row returned by the query. *)
Definition sample_posix : world :=
  sample_world "posix" 1000 "/opt/oic" (Some [PyStr "X"]).

(** The application as [__init__] leaves it. *)
Definition started (w : world) (env : gmap string string) : state :=
  (App_init w (initial_state env)).2.

(** An environment in which the client directory is already on the
    search path. *)
Definition sample_env : gmap string string :=
  {["LD_LIBRARY_PATH" := "/usr/lib:/opt/oic"]}.

(** The application after a successful [oracle_connect]. *)
Definition connected (w : world) (env : gmap string string) : state :=
  (oracle_connect w (started w env)).2.

(** The sample installation when the query returns no row. *)
Definition sample_no_row : world :=
  sample_world "posix" 1000 "/opt/oic" None.

(** The sample installation when root starts the program. *)
Definition sample_root : world :=
  sample_world "posix" 0 "/opt/oic" (Some [PyStr "X"]).

(** Two columns of a join that carry the same name. *)
Definition id_columns : list column_desc :=
  [ {| cd_name := "ID"; cd_type := "NUMBER"; cd_null_ok := false |};
    {| cd_name := "ID"; cd_type := "NUMBER"; cd_null_ok := false |} ].


(** ** Variations of an installation *)

(** The same installation on another platform. *)
Definition with_os_name (os : string) (w : world) : world :=
  {| os_name := os;
     IsUserAnAdmin := IsUserAnAdmin w;
     getuid := getuid w;
     sys_executable := sys_executable w;
     sys_argv0 := sys_argv0 w;
     sys_argv_rest := sys_argv_rest w;
     program_dir := program_dir w;
     program_file_stem := program_file_stem w;
     config_contents := config_contents w;
     parse_args := parse_args w;
     file_handler := file_handler w;
     import_cx_Oracle := import_cx_Oracle w;
     connect := connect w;
     execute := execute w;
     description := description w;
     fetched := fetched w;
     smtp_connect := smtp_connect w;
     send_message := send_message w;
     execv := execv w;
     elapsed := elapsed w;
     format_exc := format_exc w;
     NOTIFY_TEXT := NOTIFY_TEXT w;
     ORA_SELECT_FROM_DUAL_SQL := ORA_SELECT_FROM_DUAL_SQL w |}.

(** The same installation where [os.execv] ends as [r] says. *)
Definition with_execv (r : option exn) (w : world) : world :=
  {| os_name := os_name w;
     IsUserAnAdmin := IsUserAnAdmin w;
     getuid := getuid w;
     sys_executable := sys_executable w;
     sys_argv0 := sys_argv0 w;
     sys_argv_rest := sys_argv_rest w;
     program_dir := program_dir w;
     program_file_stem := program_file_stem w;
     config_contents := config_contents w;
     parse_args := parse_args w;
     file_handler := file_handler w;
     import_cx_Oracle := import_cx_Oracle w;
     connect := connect w;
     execute := execute w;
     description := description w;
     fetched := fetched w;
     smtp_connect := smtp_connect w;
     send_message := send_message w;
     execv := r;
     elapsed := elapsed w;
     format_exc := format_exc w;
     NOTIFY_TEXT := NOTIFY_TEXT w;
     ORA_SELECT_FROM_DUAL_SQL := ORA_SELECT_FROM_DUAL_SQL w |}.

(** The same installation under another command line. *)
Definition with_parse_args (r : result namespace) (w : world) : world :=
  {| os_name := os_name w;
     IsUserAnAdmin := IsUserAnAdmin w;
     getuid := getuid w;
     sys_executable := sys_executable w;
     sys_argv0 := sys_argv0 w;
     sys_argv_rest := sys_argv_rest w;
     program_dir := program_dir w;
     program_file_stem := program_file_stem w;
     config_contents := config_contents w;
     parse_args := r;
     file_handler := file_handler w;
     import_cx_Oracle := import_cx_Oracle w;
     connect := connect w;
     execute := execute w;
     description := description w;
     fetched := fetched w;
     smtp_connect := smtp_connect w;
     send_message := send_message w;
     execv := execv w;
     elapsed := elapsed w;
     format_exc := format_exc w;
     NOTIFY_TEXT := NOTIFY_TEXT w;
     ORA_SELECT_FROM_DUAL_SQL := ORA_SELECT_FROM_DUAL_SQL w |}.

(** The same installation with another configuration file. *)
Definition with_config_contents (c : gmap string (gmap string string)) (w : world) : world :=
  {| os_name := os_name w;
     IsUserAnAdmin := IsUserAnAdmin w;
     getuid := getuid w;
     sys_executable := sys_executable w;
     sys_argv0 := sys_argv0 w;
     sys_argv_rest := sys_argv_rest w;
     program_dir := program_dir w;
     program_file_stem := program_file_stem w;
     config_contents := c;
     parse_args := parse_args w;
     file_handler := file_handler w;
     import_cx_Oracle := import_cx_Oracle w;
     connect := connect w;
     execute := execute w;
     description := description w;
     fetched := fetched w;
     smtp_connect := smtp_connect w;
     send_message := send_message w;
     execv := execv w;
     elapsed := elapsed w;
     format_exc := format_exc w;
     NOTIFY_TEXT := NOTIFY_TEXT w;
     ORA_SELECT_FROM_DUAL_SQL := ORA_SELECT_FROM_DUAL_SQL w |}.

(** The same installation where the database answers the connect as [r] says. *)
Definition with_connect (r : option exn) (w : world) : world :=
  {| os_name := os_name w;
     IsUserAnAdmin := IsUserAnAdmin w;
     getuid := getuid w;
     sys_executable := sys_executable w;
     sys_argv0 := sys_argv0 w;
     sys_argv_rest := sys_argv_rest w;
     program_dir := program_dir w;
     program_file_stem := program_file_stem w;
     config_contents := config_contents w;
     parse_args := parse_args w;
     file_handler := file_handler w;
     import_cx_Oracle := import_cx_Oracle w;
     connect := r;
     execute := execute w;
     description := description w;
     fetched := fetched w;
     smtp_connect := smtp_connect w;
     send_message := send_message w;
     execv := execv w;
     elapsed := elapsed w;
     format_exc := format_exc w;
     NOTIFY_TEXT := NOTIFY_TEXT w;
     ORA_SELECT_FROM_DUAL_SQL := ORA_SELECT_FROM_DUAL_SQL w |}.

(** The same installation where the mail host answers as [r] says. *)
Definition with_smtp_connect (r : option exn) (w : world) : world :=
  {| os_name := os_name w;
     IsUserAnAdmin := IsUserAnAdmin w;
     getuid := getuid w;
     sys_executable := sys_executable w;
     sys_argv0 := sys_argv0 w;
     sys_argv_rest := sys_argv_rest w;
     program_dir := program_dir w;
     program_file_stem := program_file_stem w;
     config_contents := config_contents w;
     parse_args := parse_args w;
     file_handler := file_handler w;
     import_cx_Oracle := import_cx_Oracle w;
     connect := connect w;
     execute := execute w;
     description := description w;
     fetched := fetched w;
     smtp_connect := r;
     send_message := send_message w;
     execv := execv w;
     elapsed := elapsed w;
     format_exc := format_exc w;
     NOTIFY_TEXT := NOTIFY_TEXT w;
     ORA_SELECT_FROM_DUAL_SQL := ORA_SELECT_FROM_DUAL_SQL w |}.

(** The same installation where the query has the columns [d]. *)
Definition with_description (d : list column_desc) (w : world) : world :=
  {| os_name := os_name w;
     IsUserAnAdmin := IsUserAnAdmin w;
     getuid := getuid w;
     sys_executable := sys_executable w;
     sys_argv0 := sys_argv0 w;
     sys_argv_rest := sys_argv_rest w;
     program_dir := program_dir w;
     program_file_stem := program_file_stem w;
     config_contents := config_contents w;
     parse_args := parse_args w;
     file_handler := file_handler w;
     import_cx_Oracle := import_cx_Oracle w;
     connect := connect w;
     execute := execute w;
     description := d;
     fetched := fetched w;
     smtp_connect := smtp_connect w;
     send_message := send_message w;
     execv := execv w;
     elapsed := elapsed w;
     format_exc := format_exc w;
     NOTIFY_TEXT := NOTIFY_TEXT w;
     ORA_SELECT_FROM_DUAL_SQL := ORA_SELECT_FROM_DUAL_SQL w |}.


(** The events a command adds for the user to read: log lines and
    printed lines. *)
Definition is_output (ev : event) : bool :=
  match ev with
  | EvLogInfo _ | EvPrint _ => true
  | _ => false
  end.

(** [[x]] for [Some x], the empty list for [None]. *)
Definition olist {A} (o : option A) : list A :=
  match o with
  | Some x => [x]
  | None => []
  end.

(** The calls [oracle_disconnect] makes when none of them fails, for the
    attributes it finds. *)
Definition disconnect_calls (commit : bool) (s : state) : list event :=
  (if commit then olist (EvCommit <$> ora_con s) else []) ++
  olist (EvCursorClose <$> ora_update_cur s) ++
  olist (EvCursorClose <$> ora_select_cur s) ++
  olist (EvConnectionClose <$> ora_con s).

(** The three attributes of [self] that hold the session. *)
Definition session_attrs (s : state)
    : option handle * option handle * option handle :=
  (ora_con s, ora_select_cur s, ora_update_cur s).

(** A method that leaves the session attributes alone whenever it does
    not return. *)
Definition attrs_kept_on_failure {A} (m : M A) : Prop :=
  ∀ s, (∀ a, (m s).1 ≠ Ret a) → session_attrs (m s).2 = session_attrs s.
(** * Theorems *)

(** ** Strings *)

Lemma app_empty_r (s : string) : s +:+ "" = s.
Proof. induction s as [|c s IH]; simpl; congruence. Qed.

Lemma app_assoc_str (a b c : string) : (a +:+ b) +:+ c = a +:+ b +:+ c.
Proof. induction a as [|x a IH]; simpl; congruence. Qed.

Lemma app_eq_empty (a b : string) : a +:+ b = "" → a = "" ∧ b = "".
Proof. destruct a; simpl; [done | discriminate]. Qed.

Lemma prefix_iff (sub s : string) :
  String.prefix sub s = true ↔ ∃ post, s = sub +:+ post.
Proof.
  revert sub. induction s as [|b s IH]; intros [|a sub]; simpl.
  - split; [by exists "" | done].
  - split; [done | by intros [post ?]].
  - split; [by eexists | done].
  - destruct (ascii_dec a b) as [->|Hne].
    + rewrite IH. split; intros [post Hp]; exists post; congruence.
    + split; [done | intros [post Hp]; congruence].
Qed.

Lemma contains_refl (m : string) : contains m m.
Proof. exists "", "". simpl. by rewrite app_empty_r. Qed.

Lemma contains_app_r (old sep m : string) : contains (old +:+ sep +:+ m) m.
Proof.
  exists (old +:+ sep), "". by rewrite app_empty_r, app_assoc_str.
Qed.

Lemma contains_empty_l (m : string) : contains "" m → m = "".
Proof.
  intros (pre & post & H). symmetry in H.
  apply app_eq_empty in H as [_ H]. by apply app_eq_empty in H as [H _].
Qed.

Lemma contains_cons (c : ascii) (s sub : string) :
  String.prefix sub (String c s) = false →
  contains (String c s) sub ↔ contains s sub.
Proof.
  intros Hpre. split.
  - intros (pre & post & H). destruct pre as [|c' pre].
    + apply not_true_iff_false in Hpre. destruct Hpre.
      apply prefix_iff. by exists post.
    + simpl in H. exists pre, post. congruence.
  - intros (pre & post & ->). by exists (String c pre), post.
Qed.

Lemma find_from_eq (i : Z) (s sub : string) :
  find_from i s sub =
  if String.prefix sub s then i
  else match s with
       | EmptyString => -1
       | String _ s' => find_from (i + 1) s' sub
       end.
Proof. by destruct s. Qed.

Lemma find_from_ge (i : Z) (s sub : string) :
  find_from i s sub = -1 ∨ i ≤ find_from i s sub.
Proof.
  revert i. induction s as [|c s IH]; intros i; rewrite find_from_eq.
  - destruct (String.prefix sub ""); [right; lia | by left].
  - destruct (String.prefix sub (String c s)); [right; lia |].
    destruct (IH (i + 1)); [by left | right; lia].
Qed.

(** [s.find(sub) != -1] says exactly that [sub] occurs in [s]. *)
Lemma find_from_contains (i : Z) (s sub : string) :
  0 ≤ i → find_from i s sub ≠ -1 ↔ contains s sub.
Proof.
  revert i. induction s as [|c s IH]; intros i Hi; rewrite find_from_eq.
  - destruct (String.prefix sub "") eqn:Hpre.
    + split; [intros _ | lia]. apply prefix_iff in Hpre as [post ->].
      by exists "", post.
    + split; [done | intros Hc]. apply contains_empty_l in Hc as ->.
      discriminate.
  - destruct (String.prefix sub (String c s)) eqn:Hpre.
    + split; [intros _ | lia]. apply prefix_iff in Hpre as [post ->].
      by exists "", post.
    + rewrite (contains_cons _ _ _ Hpre). apply IH. lia.
Qed.

Lemma str_find_contains (s sub : string) :
  negb (str_find s sub =? -1) = true ↔ contains s sub.
Proof.
  unfold str_find. rewrite <- (find_from_contains 0) by lia.
  rewrite negb_true_iff, Z.eqb_neq. done.
Qed.

Lemma truthy_str (s : string) : truthy (PyStr s) = true ↔ s ≠ "".
Proof.
  simpl. rewrite negb_true_iff. apply String.eqb_neq.
Qed.

(** ** The environment probe *)

(** One operand of the probe, on the platform it names. *)
Lemma path_has_spec (os var : string) (environ : gmap string string)
    (m : string) :
  m ≠ "" →
  ∃ v, path_has os os var environ m = Ok v ∧
       (truthy v = true ↔ ∃ p, environ !! var = Some p ∧ contains p m).
Proof.
  intros Hm. unfold path_has, environ_get. rewrite String.eqb_refl.
  destruct (environ !! var) as [p|] eqn:Hp.
  - destruct (truthy (PyStr p)) eqn:Ht; simpl.
    + eexists; split; [done |]. simpl. rewrite str_find_contains.
      split; [by exists p | by intros (? & [= <-] & ?)].
    + exists (PyStr p); split; [done |]. rewrite Ht. split; [done |].
      intros (? & [= <-] & Hc). apply not_true_iff_false in Ht.
      rewrite truthy_str in Ht. destruct (decide (p = "")) as [->|]; [|done].
      by apply contains_empty_l in Hc.
  - exists PyNone; split; [done |]. simpl. split; [done | by intros (? & ? & ?)].
Qed.

Lemma path_has_other (os name var : string) (environ : gmap string string)
    (m : string) :
  os ≠ name → path_has os name var environ m = Ok (PyBool false).
Proof.
  intros Hne. unfold path_has. apply String.eqb_neq in Hne. by rewrite Hne.
Qed.

(** The probe on the two platforms the program knows. *)
Lemma ora_check_spec (os : string) (environ : gmap string string)
    (m : string) :
  os = "nt" ∨ os = "posix" →
  ∃ v, ora_check os environ m = Ok v ∧
       (truthy v = true ↔
          m = "" ∨ ∃ p, environ !! search_path_var os = Some p ∧ contains p m).
Proof.
  intros Hos. unfold ora_check.
  destruct (String.eqb_spec m "") as [->|Hm].
  { exists (PyBool true). split; [reflexivity |]. by split; [left |]. }
  assert (∃ v, (a ← path_has os "nt" "PATH" environ m;
                if truthy a then mret a
                else path_has os "posix" "LD_LIBRARY_PATH" environ m) = Ok v ∧
               (truthy v = true ↔
                ∃ p, environ !! search_path_var os = Some p ∧ contains p m))
    as (v & Hv & Hiff).
  { destruct Hos as [-> | ->]; unfold search_path_var; simpl.
    - destruct (path_has_spec "nt" "PATH" environ m Hm) as (v & -> & Hiff).
      simpl. destruct (truthy v) eqn:Ht.
      + exists v. split; [reflexivity | by rewrite Ht].
      + rewrite path_has_other by done. exists (PyBool false).
        split; [reflexivity |]. by rewrite <- Hiff.
    - apply (path_has_spec "posix" "LD_LIBRARY_PATH" environ m Hm). }
  exists v. split; [done |].
  rewrite Hiff. split; [by right | by intros [? | ?]].
Qed.

(** C1: on Windows and on POSIX the probe evaluates, without raising, to
    a value that is true exactly when the marker is empty or the
    platform's search-path variable is set and contains the marker; with
    the variable missing or empty it is false for every non-empty
    marker. *)
Theorem probe_iff_marker_in_search_path (os : string)
    (environ : gmap string string) (m : string) :
  os = "nt" ∨ os = "posix" →
  ∃ v, ora_check os environ m = Ok v ∧
       (truthy v = true ↔
          m = "" ∨ ∃ p, environ !! search_path_var os = Some p ∧ contains p m) ∧
       (m ≠ "" →
        environ !! search_path_var os = None ∨
        environ !! search_path_var os = Some "" →
        truthy v = false).
Proof.
  intros Hos.
  destruct (ora_check_spec os environ m Hos) as (v & Hv & Hiff).
  exists v. split; [done |]. split; [done |].
  intros Hm Hvar. apply not_true_iff_false. rewrite Hiff.
  intros [? | (p & Hp & Hc)]; [done |].
  destruct Hvar as [Hvar | Hvar]; rewrite Hvar in Hp.
  - done.
  - injection Hp as <-. by apply contains_empty_l in Hc.
Qed.

(** The theorem at work: on POSIX, with the client directory already in
    [LD_LIBRARY_PATH]. *)
Lemma probe_iff_marker_in_search_path_witness :
  ∃ v, ora_check "posix" {["LD_LIBRARY_PATH" := "/usr/lib:/opt/oic"]} "/opt/oic"
       = Ok v ∧
       (truthy v = true ↔
          "/opt/oic" = "" ∨
          ∃ p, ({["LD_LIBRARY_PATH" := "/usr/lib:/opt/oic"]} : gmap string string)
                 !! search_path_var "posix" = Some p ∧ contains p "/opt/oic") ∧
       ("/opt/oic" ≠ "" →
        ({["LD_LIBRARY_PATH" := "/usr/lib:/opt/oic"]} : gmap string string)
          !! search_path_var "posix" = None ∨
        ({["LD_LIBRARY_PATH" := "/usr/lib:/opt/oic"]} : gmap string string)
          !! search_path_var "posix" = Some "" →
        truthy v = false).
Proof.
  apply (probe_iff_marker_in_search_path "posix"). right. reflexivity.
Defined.

(** ** The monad of the methods *)

Lemma bind_run {A B} (m : M A) (f : A → M B) (s : state) :
  (m ≫= f) s =
  match m s with
  | (Ret a, s') => f a s'
  | (Raise e, s') => (Raise e, s')
  | (Execv p a, s') => (Execv p a, s')
  end.
Proof. reflexivity. Qed.

(** Unfolding of the monad's operations, leaving the methods and the
    primitives on the state folded. *)
Ltac unfold_M :=
  cbv beta iota delta [mbind M_bind mret M_ret lift raise attempt get] in *.

Lemma cfg_get_lookup (s : state) (section key v : string) :
  cfg_lookup (cfg s) section key = Some v →
  cfg_get section key s = (Ret v, s).
Proof.
  unfold cfg_lookup, cfg_get. destruct (cfg s !! section) as [sec|]; simpl.
  - by intros ->.
  - done.
Qed.

Lemma cfg_get_cases (s : state) (section key : string) :
  (∃ v, cfg_lookup (cfg s) section key = Some v ∧
        cfg_get section key s = (Ret v, s)) ∨
  (∃ k, cfg_lookup (cfg s) section key = None ∧
        cfg_get section key s = (Raise (KeyError k), s)).
Proof.
  unfold cfg_lookup, cfg_get. destruct (cfg s !! section) as [sec|]; simpl.
  - destruct (sec !! key) as [v|]; [left | right]; eauto.
  - right; eauto.
Qed.

(** ** The relaunch *)

Lemma extend_var_lookup (var : string) (environ : gmap string string)
    (m : string) :
  ∃ p, extend_var var environ m !! var = Some p ∧ contains p m.
Proof.
  unfold extend_var, environ_get.
  destruct (environ !! var) as [old|] eqn:Hold.
  - destruct (truthy (PyStr old)).
    + eexists. rewrite lookup_insert_eq. split; [done |]. apply contains_app_r.
    + eexists. rewrite lookup_insert_eq. split; [done |]. apply contains_refl.
  - simpl. eexists. rewrite lookup_insert_eq. split; [done |]. apply contains_refl.
Qed.

Lemma relaunch_environ_lookup (os : string) (environ : gmap string string)
    (m : string) :
  ∃ p, relaunch_environ os environ m !! search_path_var os = Some p ∧
       contains p m.
Proof.
  unfold relaunch_environ, search_path_var.
  destruct (String.eqb os "nt"); apply extend_var_lookup.
Qed.

(** The two ways out of the wrapper once the marker is configured. *)
Lemma wrapper_relaunch (w : world) (func : M unit) (st : state)
    (m : string) (v : pyval) :
  cfg_lookup (cfg st) "oracle" "ic_path" = Some m →
  ora_check (os_name w) (environ st) m = Ok v →
  truthy v = false →
  oracle_decorator w func st =
  os_execv w
    (if String.eqb (os_name w) "nt" then sys_executable w else sys_argv0 w)
    (if String.eqb (os_name w) "nt" then sys_executable w :: sys_argv w
     else sys_argv w)
    (with_environ (relaunch_environ (os_name w) (environ st) m) st).
Proof.
  intros Hcfg Hv Ht. unfold oracle_decorator. unfold_M.
  rewrite (cfg_get_lookup _ _ _ _ Hcfg), Hv. unfold_M. rewrite Ht.
  unfold relaunch_environ, with_environ.
  destruct (String.eqb (os_name w) "nt"); reflexivity.
Qed.

Lemma wrapper_proceed (w : world) (func : M unit) (st : state)
    (m : string) (v : pyval) :
  cfg_lookup (cfg st) "oracle" "ic_path" = Some m →
  ora_check (os_name w) (environ st) m = Ok v →
  truthy v = true →
  oracle_decorator w func st =
  (attempt (import_cx_Oracle w);; emit (EvImport "cx_Oracle");; func) st.
Proof.
  intros Hcfg Hv Ht. unfold oracle_decorator. unfold_M.
  rewrite (cfg_get_lookup _ _ _ _ Hcfg), Hv. unfold_M. by rewrite Ht.
Qed.

(** ** Methods that stay inside the process *)

Lemma no_exec_bind {A B} (m : M A) (f : A → M B) :
  no_exec m → (∀ a, no_exec (f a)) → no_exec (m ≫= f).
Proof.
  intros Hm Hf s p a. rewrite bind_run. specialize (Hm s).
  destruct (m s) as [[x|e|p' a'] s']; simpl in *.
  - apply Hf.
  - done.
  - by destruct (Hm p' a').
Qed.

Lemma keeps_bind {A B C} (g : state → C) (m : M A) (f : A → M B) :
  keeps g m → (∀ a, keeps g (f a)) → keeps g (m ≫= f).
Proof.
  intros Hm Hf s. rewrite bind_run. specialize (Hm s).
  destruct (m s) as [[x|e|p' a'] s']; simpl in *; [| done..].
  by rewrite Hf.
Qed.

Lemma no_exec_ret {A} (a : A) : no_exec (mret a).
Proof. by intros s p x. Qed.
Lemma no_exec_raise {A} (e : exn) : no_exec (@raise A e).
Proof. by intros s p x. Qed.
Lemma no_exec_get : no_exec get.
Proof. by intros s p x. Qed.
Lemma no_exec_emit (ev : event) : no_exec (emit ev).
Proof. by intros s p x. Qed.
Lemma no_exec_set_cfg c : no_exec (set_cfg c).
Proof. by intros s p x. Qed.
Lemma no_exec_set_args a : no_exec (set_args a).
Proof. by intros s p x. Qed.
Lemma no_exec_set_session c r u : no_exec (set_session c r u).
Proof. by intros s p x. Qed.
Lemma no_exec_set_objects o : no_exec (set_objects o).
Proof. by intros s p x. Qed.
Lemma no_exec_cfg_get (section key : string) : no_exec (cfg_get section key).
Proof.
  intros s p x. by destruct (cfg_get_cases s section key) as [(? & _ & ->)|(? & _ & ->)].
Qed.

Lemma keeps_ret {A C} (g : state → C) (a : A) : keeps g (mret a).
Proof. by intros s. Qed.
Lemma keeps_raise {A C} (g : state → C) (e : exn) : keeps g (@raise A e).
Proof. by intros s. Qed.
Lemma keeps_get {C} (g : state → C) : keeps g get.
Proof. by intros s. Qed.
Lemma keeps_cfg_get {C} (g : state → C) (section key : string) :
  keeps g (cfg_get section key).
Proof.
  intros s. by destruct (cfg_get_cases s section key) as [(? & _ & ->)|(? & _ & ->)].
Qed.
Lemma keeps_environ_emit ev : keeps environ (emit ev).
Proof. by intros s. Qed.
Lemma keeps_environ_set_cfg c : keeps environ (set_cfg c).
Proof. by intros s. Qed.
Lemma keeps_environ_set_args a : keeps environ (set_args a).
Proof. by intros s. Qed.
Lemma keeps_environ_set_session c r u : keeps environ (set_session c r u).
Proof. by intros s. Qed.
Lemma keeps_environ_set_objects o : keeps environ (set_objects o).
Proof. by intros s. Qed.
Lemma keeps_cfg_emit ev : keeps cfg (emit ev).
Proof. by intros s. Qed.
Lemma keeps_cfg_set_args a : keeps cfg (set_args a).
Proof. by intros s. Qed.
Lemma keeps_cfg_set_session c r u : keeps cfg (set_session c r u).
Proof. by intros s. Qed.
Lemma keeps_cfg_set_objects o : keeps cfg (set_objects o).
Proof. by intros s. Qed.
Lemma keeps_cfg_set_environ env : keeps cfg (set_environ env).
Proof. by intros s. Qed.
Lemma keeps_objects_emit ev : keeps objects (emit ev).
Proof. by intros s. Qed.

Create HintDb pybase.
#[local] Hint Resolve no_exec_ret no_exec_raise no_exec_get no_exec_emit
  no_exec_set_cfg no_exec_set_args no_exec_set_session no_exec_set_objects
  no_exec_cfg_get keeps_ret keeps_raise keeps_get keeps_cfg_get
  keeps_environ_emit keeps_environ_set_cfg keeps_environ_set_args
  keeps_environ_set_session keeps_environ_set_objects keeps_cfg_emit
  keeps_cfg_set_args keeps_cfg_set_session keeps_cfg_set_objects
  keeps_cfg_set_environ keeps_objects_emit : pybase.

(** Walks through a method: binds, conditionals and matches are split,
    the leaves are closed with the facts about the primitives. *)
Ltac walk :=
  repeat first
    [ solve [ auto with pybase ]
    | progress (cbv beta iota delta [lift attempt])
    | apply no_exec_bind; [| intros ? ]
    | apply keeps_bind; [| intros ? ]
    | match goal with
      | |- no_exec (if ?b then _ else _) => destruct b
      | |- keeps _ (if ?b then _ else _) => destruct b
      | |- no_exec (match ?x with _ => _ end) => destruct x
      | |- keeps _ (match ?x with _ => _ end) => destruct x
      end ].

Lemma no_exec_cursor_close cur : no_exec (cursor_close cur).
Proof. unfold cursor_close. walk. Qed.
Lemma no_exec_connection_close con : no_exec (connection_close con).
Proof. unfold connection_close. walk. Qed.
Lemma no_exec_connection_commit con : no_exec (connection_commit con).
Proof. unfold connection_commit. walk. Qed.
Lemma no_exec_new_object : no_exec new_object.
Proof. unfold new_object. walk. Qed.
#[local] Hint Resolve no_exec_cursor_close no_exec_connection_close
  no_exec_connection_commit no_exec_new_object : pybase.

Lemma no_exec_oracle_disconnect commit : no_exec (oracle_disconnect commit).
Proof. unfold oracle_disconnect. walk. Qed.

Lemma no_exec_send_mail w h f t sub msg pr :
  no_exec (send_mail w h f t sub msg pr).
Proof. unfold send_mail. walk. Qed.
#[local] Hint Resolve no_exec_send_mail no_exec_oracle_disconnect : pybase.

Lemma no_exec_run_except w e : no_exec (run_except w e).
Proof. unfold run_except. walk. Qed.

Lemma no_exec_oracle_connect_body w : no_exec (oracle_connect_body w).
Proof. unfold oracle_connect_body. walk. Qed.

Lemma no_exec_cmd1 : no_exec cmd1.
Proof. unfold cmd1. walk. Qed.
Lemma no_exec_cmd2 w : no_exec (cmd2 w).
Proof. unfold cmd2. walk. Qed.
Lemma no_exec_cmd3 w : no_exec (cmd3 w).
Proof. unfold cmd3, cursor_execute, cursor_fetchone. walk. Qed.

Lemma no_exec_check_admin w : no_exec (check_admin w).
Proof. unfold check_admin. walk. Qed.
Lemma no_exec_create_logger w : no_exec (create_logger w).
Proof. unfold create_logger. walk. Qed.
#[local] Hint Resolve no_exec_check_admin no_exec_create_logger
  no_exec_cmd1 no_exec_cmd2 no_exec_cmd3 no_exec_run_except
  no_exec_oracle_connect_body : pybase.

Lemma no_exec_App_init w : no_exec (App_init w).
Proof. unfold App_init. walk. Qed.

Lemma keeps_environ_check_admin w : keeps environ (check_admin w).
Proof. unfold check_admin. walk. Qed.
Lemma keeps_environ_create_logger w : keeps environ (create_logger w).
Proof. unfold create_logger. walk. Qed.
Lemma keeps_cfg_create_logger w : keeps cfg (create_logger w).
Proof. unfold create_logger. walk. Qed.
#[local] Hint Resolve keeps_environ_check_admin keeps_environ_create_logger
  keeps_cfg_create_logger : pybase.

Lemma keeps_environ_App_init w : keeps environ (App_init w).
Proof. unfold App_init. walk. Qed.

Lemma bind_Ret_inv {A B} (m : M A) (f : A → M B) s b s2 :
  (m ≫= f) s = (Ret b, s2) →
  ∃ a s1, m s = (Ret a, s1) ∧ f a s1 = (Ret b, s2).
Proof.
  rewrite bind_run. destruct (m s) as [[a|e|p x] s1]; [eauto | done..].
Qed.

Lemma bind_Execv_inv {A B} (m : M A) (f : A → M B) s p x s2 :
  (m ≫= f) s = (Execv p x, s2) →
  m s = (Execv p x, s2) ∨
  ∃ a s1, m s = (Ret a, s1) ∧ f a s1 = (Execv p x, s2).
Proof.
  rewrite bind_run. destruct (m s) as [[a|e|p' x'] s1]; [eauto | done |].
  intros [= -> -> ->]. by left.
Qed.

Lemma no_exec_neq {A} (m : M A) s p x s' :
  no_exec m → m s ≠ (Execv p x, s').
Proof. intros Hm H. apply (Hm s p x). by rewrite H. Qed.

(** The configuration a started application works with is the content
    of its file. *)
Lemma App_init_cfg w s s1 :
  App_init w s = (Ret tt, s1) → cfg s1 = config_contents w.
Proof.
  unfold App_init. intros H.
  apply bind_Ret_inv in H as (? & s2 & ? & H).
  apply bind_Ret_inv in H as (? & s3 & ? & H).
  apply bind_Ret_inv in H as (? & s4 & ? & H).
  apply bind_Ret_inv in H as (? & s5 & Hset & H).
  match type of H with
  | ?rest _ = _ => assert (keeps cfg rest) as Hk by walk
  end.
  specialize (Hk s5). rewrite H in Hk. simpl in Hk. rewrite Hk.
  by injection Hset as _ <-.
Qed.

(** The wrapper replaces the process only on its relaunch branch. *)
Lemma oracle_decorator_exec w func s p x s' :
  no_exec func →
  oracle_decorator w func s = (Execv p x, s') →
  ∃ m v, cfg_lookup (cfg s) "oracle" "ic_path" = Some m ∧
         ora_check (os_name w) (environ s) m = Ok v ∧ truthy v = false ∧
         environ s' = relaunch_environ (os_name w) (environ s) m.
Proof.
  intros Hfunc H.
  destruct (cfg_get_cases s "oracle" "ic_path") as [(m & Hl & Hg)|(k & Hl & Hg)].
  - destruct (ora_check (os_name w) (environ s) m) as [v|e] eqn:Hv.
    + destruct (truthy v) eqn:Ht.
      * rewrite (wrapper_proceed _ _ _ _ _ Hl Hv Ht) in H.
        apply no_exec_neq in H; [done | walk].
      * rewrite (wrapper_relaunch _ _ _ _ _ Hl Hv Ht) in H.
        unfold os_execv in H. destruct (execv w); [done |].
        injection H as _ _ <-. by exists m, v.
    + unfold oracle_decorator in H. unfold_M. rewrite Hg in H. unfold_M.
      by rewrite Hv in H.
  - unfold oracle_decorator in H. unfold_M. by rewrite Hg in H.
Qed.

Lemma run_try_exec w s p x s' :
  run_try w s = (Execv p x, s') →
  ∃ m v, cfg_lookup (cfg s) "oracle" "ic_path" = Some m ∧
         ora_check (os_name w) (environ s) m = Ok v ∧ truthy v = false ∧
         environ s' = relaunch_environ (os_name w) (environ s) m.
Proof.
  unfold run_try. intros H. apply bind_Execv_inv in H as [H | (s0 & ? & [= <- <-] & H)];
    [done |].
  destruct (String.eqb _ "cmd1"); [by apply no_exec_neq in H; walk |].
  destruct (String.eqb _ "cmd2"); [by apply no_exec_neq in H; walk |].
  destruct (String.eqb _ "cmd3"); [| by apply no_exec_neq in H; walk].
  apply bind_Execv_inv in H as [H | (? & s1 & ? & H)].
  - unfold oracle_connect in H.
    apply oracle_decorator_exec in H; [done | walk].
  - apply no_exec_neq in H; [done | walk].
Qed.

(** A process that ends replaced found the marker missing, and leaves to
    its successor the environment extended with the marker. *)
Lemma program_replaced w env p x env' :
  program w env = Replaced p x env' →
  ∃ m v, cfg_lookup (config_contents w) "oracle" "ic_path" = Some m ∧
         ora_check (os_name w) env m = Ok v ∧ truthy v = false ∧
         env' = relaunch_environ (os_name w) env m.
Proof.
  unfold program, main. intros H.
  pose proof (no_exec_App_init w (initial_state env)) as Hne.
  pose proof (keeps_environ_App_init w (initial_state env)) as Henv.
  rewrite bind_run in H.
  destruct (App_init w (initial_state env)) as [[[]|e|p' x'] s1] eqn:Hinit;
    simpl in *.
  - apply App_init_cfg in Hinit as Hcfg. unfold run, try_except in H.
    destruct (run_try w s1) as [[[]|e|p' x'] s2] eqn:Htry.
    + done.
    + destruct (is_Exception e); [| by destruct e].
      pose proof (no_exec_run_except w e s2) as Hex.
      destruct (run_except w e s2) as [[[]|e'|p' x'] s3]; simpl in *;
        [done | by destruct e' | by destruct (Hex p' x')].
    + simpl in H. injection H as -> -> <-.
      apply run_try_exec in Htry. by rewrite Hcfg, Henv in Htry.
  - by destruct e.
  - by destruct (Hne p' x').
Qed.

(** C2: on Windows and on POSIX, when the probe for a non-empty marker
    is false, the wrapper leaves an environment over which the probe for
    that marker is true; and one invocation of the program is a chain of
    at most two processes, that is at most one relaunch. *)
Theorem relaunch_converges (w : world) (func : M unit) (st : state)
    (m : string) (v : pyval) :
  os_name w = "nt" ∨ os_name w = "posix" →
  m ≠ "" →
  cfg_lookup (cfg st) "oracle" "ic_path" = Some m →
  ora_check (os_name w) (environ st) m = Ok v →
  truthy v = false →
  (∃ r st', oracle_decorator w func st = (r, st') ∧
            ∃ v', ora_check (os_name w) (environ st') m = Ok v' ∧
                  truthy v' = true) ∧
  (∀ fuel env, ∃ n status,
     invocation (S (S fuel)) w env = Some (n, status) ∧ (n ≤ 1)%nat).
Proof.
  intros Hos Hm Hcfg Hv Ht.
  assert (∀ env, ∃ v', ora_check (os_name w)
                         (relaunch_environ (os_name w) env m) m = Ok v' ∧
                       truthy v' = true) as Hconv.
  { intros env.
    destruct (ora_check_spec (os_name w)
                (relaunch_environ (os_name w) env m) m Hos) as (v' & Hv' & Hiff).
    exists v'. split; [done |]. apply Hiff. right.
    apply relaunch_environ_lookup. }
  split.
  - rewrite (wrapper_relaunch _ _ _ _ _ Hcfg Hv Ht). unfold os_execv.
    destruct (execv w); eexists _, _; (split; [reflexivity | apply Hconv]).
  - intros fuel env. simpl.
    destruct (program w env) as [status | p x env'] eqn:H1.
    { exists O, status. split; [done | lia]. }
    apply program_replaced in H1 as (m1 & v1 & Hm1 & _ & _ & ->).
    destruct (program w (relaunch_environ (os_name w) env m1))
      as [status | p' x' env''] eqn:H2.
    { exists 1%nat, status. split; [done | lia]. }
    apply program_replaced in H2 as (m2 & v2 & Hm2 & Hv2 & Ht2 & _).
    assert (m2 = m1) as -> by congruence.
    destruct (ora_check_spec (os_name w)
                (relaunch_environ (os_name w) env m1) m1 Hos) as (v' & Hv' & Hiff).
    assert (truthy v' = true) as Ht'.
    { apply Hiff. right. apply relaunch_environ_lookup. }
    congruence.
Qed.

(** The theorem at work: the sample installation on POSIX, started with
    an empty environment. *)
Lemma relaunch_converges_witness :
  (∃ r st', oracle_decorator sample_posix (oracle_connect_body sample_posix)
              (started sample_posix ∅) = (r, st') ∧
            ∃ v', ora_check (os_name sample_posix) (environ st') "/opt/oic"
                  = Ok v' ∧ truthy v' = true) ∧
  (∀ fuel env, ∃ n status,
     invocation (S (S fuel)) sample_posix env = Some (n, status) ∧ (n ≤ 1)%nat).
Proof.
  apply (relaunch_converges sample_posix _ (started sample_posix ∅)
           "/opt/oic" PyNone).
  - right. reflexivity.
  - discriminate.
  - vm_compute. reflexivity.
  - vm_compute. reflexivity.
  - reflexivity.
Defined.

(** C3, at the input where the code departs from it: on POSIX, with
    [LD_LIBRARY_PATH] already set, the wrapper appends the marker after a
    semicolon, not after the colon that separates path lists there,
    before it replaces the process with the script under its own
    command line. *)
Theorem posix_relaunch_appends_with_semicolon :
  ∃ st', oracle_connect sample_posix
           (started sample_posix {["LD_LIBRARY_PATH" := "/usr/lib"]})
         = (Execv "/opt/pybase/pybase.py" ["/opt/pybase/pybase.py"; "cmd3"; "x"],
            st') ∧
         environ st' !! "LD_LIBRARY_PATH" = Some "/usr/lib;/opt/oic" ∧
         environ st' !! "LD_LIBRARY_PATH" ≠ Some "/usr/lib:/opt/oic".
Proof.
  eexists. split; [vm_compute; reflexivity |]. split; [vm_compute; reflexivity |].
  vm_compute. discriminate.
Qed.

(** ** The session *)

(** The close of an open session, step by step. *)
Lemma oracle_disconnect_open (s : state)
    (con select_cur update_cur : handle) (commit : bool) :
  session_open s con select_cur update_cur →
  ∃ s', oracle_disconnect commit s = (Ret tt, s') ∧
        trace s' = trace s ++ (if commit then [EvCommit con] else []) ++
                   [EvCursorClose update_cur; EvCursorClose select_cur;
                    EvConnectionClose con] ∧
        session_closed s' con select_cur update_cur.
Proof.
  intros (Hc & Hr & Hu & Hoc & Hor & Hou & Hcr & Hcu & Hru).
  destruct s as [env c a oc osel oupd objs tr]. simpl in *. subst.
  unfold oracle_disconnect, connection_commit, cursor_close, connection_close.
  unfold_M. destruct commit; simpl.
  - rewrite Hoc. simpl. rewrite Hou. simpl.
    rewrite lookup_insert_ne, Hor by done. simpl.
    rewrite !lookup_insert_ne, Hoc by done. simpl.
    eexists. split; [reflexivity |]. simpl. rewrite <- !app_assoc. simpl.
    split; [done |]. unfold session_closed; simpl. by simplify_map_eq.
  - rewrite Hou. simpl.
    rewrite lookup_insert_ne, Hor by done. simpl.
    rewrite !lookup_insert_ne, Hoc by done. simpl.
    eexists. split; [reflexivity |]. simpl. rewrite <- !app_assoc. simpl.
    split; [done |]. unfold session_closed; simpl. by simplify_map_eq.
Qed.

(** C6: closing an open session succeeds; with [commit] the commit comes
    first, before any release, without it no commit is issued; in both
    cases the write cursor is released, then the read cursor, then the
    connection, and nothing else happens. *)
Theorem disconnect_commits_then_releases_in_order (s : state)
    (con select_cur update_cur : handle) (commit : bool) :
  session_open s con select_cur update_cur →
  ∃ s', oracle_disconnect commit s = (Ret tt, s') ∧
        trace s' = trace s ++ (if commit then [EvCommit con] else []) ++
                   [EvCursorClose update_cur; EvCursorClose select_cur;
                    EvConnectionClose con] ∧
        session_closed s' con select_cur update_cur.
Proof. apply oracle_disconnect_open. Qed.

(** The theorem at work: the session opened by [oracle_connect] in the
    sample installation, closed with a commit. *)
Lemma disconnect_commits_then_releases_in_order_witness :
  ∃ s', oracle_disconnect true (connected sample_posix sample_env)
        = (Ret tt, s') ∧
        trace s' = trace (connected sample_posix sample_env) ++
                   [EvCommit 0%nat] ++
                   [EvCursorClose 2%nat; EvCursorClose 1%nat;
                    EvConnectionClose 0%nat] ∧
        session_closed s' 0%nat 1%nat 2%nat.
Proof.
  apply (disconnect_commits_then_releases_in_order
           (connected sample_posix sample_env) 0%nat 1%nat 2%nat true).
  vm_compute. repeat split; discriminate.
Defined.

(** The claim of C8 fails on a session that was never opened: the close
    ends with an exception. *)
Lemma disconnect_unset_session_raises :
  session_unset (started sample_posix sample_env) ∧
  raises (oracle_disconnect false) (started sample_posix sample_env) ∧
  oracle_disconnect false (started sample_posix sample_env)
  = (Raise (AttributeError "'NoneType' object has no attribute 'close'"),
     started sample_posix sample_env).
Proof.
  split; [by vm_compute |]. split; [| by vm_compute].
  eexists _, _. by vm_compute.
Qed.

(** C8, as the code has it: the close has no guard.  On a session that was
    never opened, or that was closed before, it ends with an exception
    raised by its first call ([commit] on the connection when a commit is
    asked for, else [close] on the write cursor): an [AttributeError] on
    [None] in the first case, the driver's [InterfaceError] in the
    second.  Nothing is released and the state is left as it was. *)
Theorem disconnect_without_open_session_raises (s : state) (commit : bool) :
  session_unset s ∨ (∃ con select_cur update_cur,
                       session_closed s con select_cur update_cur) →
  ∃ e, oracle_disconnect commit s = (Raise e, s) ∧
       is_Exception e = true ∧
       (session_unset s →
        e = AttributeError (if commit
                            then "'NoneType' object has no attribute 'commit'"
                            else "'NoneType' object has no attribute 'close'")) ∧
       ((∃ con select_cur update_cur,
           session_closed s con select_cur update_cur) →
        e = InterfaceError (if commit then "not connected" else "not open")).
Proof.
  unfold session_unset, session_closed.
  destruct s as [env c a oc osel oupd objs tr]. simpl.
  unfold oracle_disconnect, connection_commit, cursor_close, connection_close.
  intros [(-> & -> & ->) | (con & r & u & -> & -> & -> & Hc & Hr & Hu)].
  - destruct commit; unfold_M; simpl; eexists; (split; [reflexivity |]);
      (split; [done |]); (split; [done |]);
      by intros (? & ? & ? & ? & _).
  - destruct commit; unfold_M; simpl; rewrite ?Hc, ?Hu; simpl;
      eexists; (split; [reflexivity |]); (split; [done |]);
      (split; [| done]); by intros (? & _).
Qed.

(** The theorem at work, on both kinds of session: the sample application
    before [oracle_connect], and after a connect and a close. *)
Lemma disconnect_without_open_session_raises_witness :
  (∃ e, oracle_disconnect true (started sample_posix sample_env)
        = (Raise e, started sample_posix sample_env) ∧
        is_Exception e = true ∧
        (session_unset (started sample_posix sample_env) →
         e = AttributeError "'NoneType' object has no attribute 'commit'") ∧
        ((∃ con select_cur update_cur,
            session_closed (started sample_posix sample_env)
              con select_cur update_cur) →
         e = InterfaceError "not connected")) ∧
  (∃ e, oracle_disconnect false
          (oracle_disconnect false (connected sample_posix sample_env)).2
        = (Raise e,
           (oracle_disconnect false (connected sample_posix sample_env)).2) ∧
        is_Exception e = true ∧
        (session_unset
           (oracle_disconnect false (connected sample_posix sample_env)).2 →
         e = AttributeError "'NoneType' object has no attribute 'close'") ∧
        ((∃ con select_cur update_cur,
            session_closed
              (oracle_disconnect false (connected sample_posix sample_env)).2
              con select_cur update_cur) →
         e = InterfaceError "not open")).
Proof.
  split.
  - apply (disconnect_without_open_session_raises
             (started sample_posix sample_env) true).
    left. by vm_compute.
  - apply (disconnect_without_open_session_raises
             (oracle_disconnect false (connected sample_posix sample_env)).2
             false).
    right. exists 0%nat, 1%nat, 2%nat. by vm_compute.
Defined.

(** ** Commands between the open and the close of a session *)

Lemma quiet_bind {A B} (m : M A) (f : A → M B) :
  quiet m → (∀ a, quiet (f a)) → quiet (m ≫= f).
Proof.
  intros Hm Hf s. rewrite bind_run. destruct (Hm s) as (evs & Ht & Hev).
  destruct (m s) as [[x|e|p' a'] s']; simpl in *; [| by exists evs..].
  destruct (Hf x s') as (evs' & Ht' & Hev').
  exists (evs ++ evs'). rewrite Ht', Ht, app_assoc. split; [done |].
  by apply Forall_app.
Qed.

Lemma quiet_same_trace {A} (m : M A) :
  keeps trace m → quiet m.
Proof. intros Hk s. exists []. by rewrite Hk, app_nil_r. Qed.

Lemma quiet_emit (ev : event) : is_release ev = false → quiet (emit ev).
Proof. intros Hev s. exists [ev]. split; [done |]. by constructor. Qed.

Lemma keeps_trace_set_environ env : keeps trace (set_environ env).
Proof. by intros s. Qed.
Lemma keeps_trace_set_session c r u : keeps trace (set_session c r u).
Proof. by intros s. Qed.
Lemma keeps_trace_set_objects o : keeps trace (set_objects o).
Proof. by intros s. Qed.
Lemma keeps_session_emit ev : keeps session_of (emit ev).
Proof. by intros s. Qed.
Lemma keeps_session_set_environ env : keeps session_of (set_environ env).
Proof. by intros s. Qed.

#[local] Hint Resolve keeps_trace_set_environ keeps_trace_set_session
  keeps_trace_set_objects keeps_session_emit keeps_session_set_environ
  : pybase.
#[local] Hint Extern 1 (quiet (emit _)) =>
  apply quiet_emit; reflexivity : pybase.
#[local] Hint Extern 5 (quiet _) =>
  apply quiet_same_trace; solve [auto with pybase] : pybase.

(** [walk] for the events a method adds. *)
Ltac walk_quiet :=
  repeat first
    [ solve [ auto with pybase ]
    | progress (cbv beta iota delta [lift attempt])
    | apply quiet_bind; [| intros ? ]
    | match goal with
      | |- quiet (if ?b then _ else _) => destruct b
      | |- quiet (match ?x with _ => _ end) => destruct x
      end ].

Lemma quiet_send_mail w h f t sub msg pr : quiet (send_mail w h f t sub msg pr).
Proof. unfold send_mail. walk_quiet. Qed.
#[local] Hint Resolve quiet_send_mail : pybase.

Lemma quiet_run_except w e : quiet (run_except w e).
Proof. unfold run_except. walk_quiet. Qed.

Lemma quiet_cmd3 w : quiet (cmd3 w).
Proof. unfold cmd3, cursor_execute, cursor_fetchone. walk_quiet. Qed.

Lemma keeps_session_send_mail w h f t sub msg pr :
  keeps session_of (send_mail w h f t sub msg pr).
Proof. unfold send_mail. walk. Qed.
#[local] Hint Resolve keeps_session_send_mail : pybase.

Lemma keeps_session_run_except w e : keeps session_of (run_except w e).
Proof. unfold run_except. walk. Qed.

Lemma keeps_session_cmd3 w : keeps session_of (cmd3 w).
Proof. unfold cmd3, cursor_execute, cursor_fetchone. walk. Qed.

Lemma keeps_cfg_cmd3 w : keeps cfg (cmd3 w).
Proof. unfold cmd3, cursor_execute, cursor_fetchone. walk. Qed.

Lemma session_open_same (s s' : state) (c r u : handle) :
  session_of s' = session_of s → session_open s c r u → session_open s' c r u.
Proof.
  unfold session_of, session_open. intros [= -> -> -> ->]. done.
Qed.

Lemma keeps_os_execv {C} (g : state → C) w p a : keeps g (os_execv w p a).
Proof. unfold os_execv. by destruct (execv w); intros s. Qed.
Lemma keeps_cfg_new_object : keeps cfg new_object.
Proof. unfold new_object. walk. Qed.
#[local] Hint Resolve keeps_os_execv keeps_cfg_new_object : pybase.

Lemma keeps_cfg_oracle_connect w : keeps cfg (oracle_connect w).
Proof. unfold oracle_connect, oracle_decorator, oracle_connect_body. walk. Qed.

(** Three objects, each new when it is made, are open and distinct. *)
Lemma three_new_objects (objs : gmap handle bool) (c r u : handle) :
  r ∉ dom (<[c := true]> objs) →
  u ∉ dom (<[r := true]> (<[c := true]> objs)) →
  <[u := true]> (<[r := true]> (<[c := true]> objs)) !! c = Some true ∧
  <[u := true]> (<[r := true]> (<[c := true]> objs)) !! r = Some true ∧
  <[u := true]> (<[r := true]> (<[c := true]> objs)) !! u = Some true ∧
  c ≠ r ∧ c ≠ u ∧ r ≠ u.
Proof.
  rewrite !dom_insert_L. intros Hr Hu.
  assert (c ≠ r) by set_solver.
  assert (c ≠ u) by set_solver.
  assert (r ≠ u) by set_solver.
  by simplify_map_eq.
Qed.

Lemma oracle_connect_body_opens w s s1 :
  oracle_connect_body w s = (Ret tt, s1) →
  ∃ con select_cur update_cur, session_open s1 con select_cur update_cur.
Proof.
  unfold oracle_connect_body. intros H.
  do 8 (apply bind_Ret_inv in H as (? & ? & _ & H)).
  apply bind_Ret_inv in H as (? & s2 & _ & H).
  unfold new_object, emit, set_objects, set_session in H. unfold_M.
  simpl in H. injection H as <-.
  eexists _, _, _. unfold session_open. simpl.
  split; [done |]. split; [done |]. split; [done |].
  apply three_new_objects; apply is_fresh.
Qed.

(** A successful [oracle_connect] leaves an open session. *)
Lemma oracle_connect_opens w s s1 :
  oracle_connect w s = (Ret tt, s1) →
  ∃ con select_cur update_cur, session_open s1 con select_cur update_cur.
Proof.
  unfold oracle_connect, oracle_decorator. intros H.
  apply bind_Ret_inv in H as (m & s2 & _ & H).
  apply bind_Ret_inv in H as (s3 & s4 & _ & H).
  apply bind_Ret_inv in H as (v & s5 & _ & H).
  destruct (truthy v).
  - apply bind_Ret_inv in H as (? & s6 & _ & H).
    apply bind_Ret_inv in H as (? & s7 & _ & H).
    by apply oracle_connect_body_opens in H.
  - destruct (String.eqb (os_name w) "nt");
      apply bind_Ret_inv in H as (? & s6 & _ & H);
      unfold os_execv in H; by destruct (execv w).
Qed.

(** ** The failure boundary of [run] *)

Lemma run_try_cmd3 w st :
  ns_command (args st) = "cmd3" →
  run_try w st = (oracle_connect w;; cmd3 w;; oracle_disconnect false) st.
Proof. unfold run_try. rewrite bind_run. simpl. by intros ->. Qed.

(** When the body of the DB command raises, [run] goes to its [except]
    clause, or lets the exception through if it is no [Exception]. *)
Lemma run_cmd3_raise w st st1 e st2 :
  ns_command (args st) = "cmd3" →
  oracle_connect w st = (Ret tt, st1) →
  cmd3 w st1 = (Raise e, st2) →
  run w st = if is_Exception e then run_except w e st2 else (Raise e, st2).
Proof.
  intros Hcmd Hcon Hbody. unfold run, try_except.
  rewrite (run_try_cmd3 _ _ Hcmd), bind_run, Hcon, bind_run, Hbody.
  by destruct (is_Exception e).
Qed.

Lemma run_cmd3_return w st st1 st2 :
  ns_command (args st) = "cmd3" →
  oracle_connect w st = (Ret tt, st1) →
  cmd3 w st1 = (Ret tt, st2) →
  run_try w st = oracle_disconnect false st2.
Proof.
  intros Hcmd Hcon Hbody.
  by rewrite (run_try_cmd3 _ _ Hcmd), bind_run, Hcon, bind_run, Hbody.
Qed.

(** What the [except] clause does: it logs, then either sends one message
    and returns, or raises without a message sent. *)
Lemma run_except_cases w e s prog :
  cfg_lookup (cfg s) "main" "program" = Some prog →
  ∃ r s' sent,
    run_except w e s = (r, s') ∧
    trace s' = trace s ++ EvLogException ("EXCEPTION - " +:+ exn_str e) e :: sent ∧
    ((r = Ret tt ∧
      ∃ host sender,
        sent = [EvSendMessage
                  {| em_host := host;
                     em_subject := "EXCEPTION - " +:+ prog;
                     em_from := sender; em_to := sender;
                     em_priority := "1";
                     em_content := NOTIFY_TEXT w prog "EXCEPTION"
                                     (format_exc w e +:+ ".") |}]) ∨
     (sent = [] ∧ ∃ e', r = Raise e')).
Proof.
  intros Hprog. unfold run_except, send_mail. unfold_M.
  unfold emit at 1. cbv beta iota.
  set (s1 := Build_state _ _ _ _ _ _ _ _).
  assert (cfg_get "main" "program" s1 = (Ret prog, s1)) as Hg
    by by apply cfg_get_lookup.
  rewrite Hg. cbv beta iota. rewrite Hg. cbv beta iota.
  destruct (cfg_get_cases s1 "email" "mail_host")
    as [(host & _ & Hh) | (k & _ & Hh)]; rewrite Hh; cbv beta iota.
  2: { eexists _, _, []. split; [reflexivity |]. split; [done | right; eauto]. }
  destruct (cfg_get_cases s1 "email" "sender_mail")
    as [(sender & _ & Hs) | (k & _ & Hs)]; rewrite Hs; cbv beta iota.
  2: { eexists _, _, []. split; [reflexivity |]. split; [done | right; eauto]. }
  rewrite Hs. cbv beta iota.
  destruct (smtp_connect w) as [e1|].
  { eexists _, _, []. split; [reflexivity |]. split; [done | right; eauto]. }
  destruct (send_message w) as [e2|].
  { eexists _, _, []. split; [reflexivity |]. split; [done | right; eauto]. }
  eexists _, _, [_]. split; [reflexivity |]. simpl. split.
  - by rewrite <- app_assoc.
  - left. eauto.
Qed.

(** The claim of C4 fails when the query returns no row: the body raises
    after the session was opened, and the run ends with the three objects
    open and without one release among its events. *)
Lemma body_error_leaves_session_open :
  (∃ st2, cmd3 sample_no_row (connected sample_no_row sample_env)
          = (Raise (TypeError "argument of type 'NoneType' is not iterable"),
             st2)) ∧
  session_open (connected sample_no_row sample_env) 0%nat 1%nat 2%nat ∧
  session_open (run sample_no_row (started sample_no_row sample_env)).2
    0%nat 1%nat 2%nat ∧
  List.filter is_release
    (trace (run sample_no_row (started sample_no_row sample_env)).2) = [].
Proof.
  split; [eexists; by vm_compute |].
  split; [vm_compute; repeat split; discriminate |].
  split; [vm_compute; repeat split; discriminate | by vm_compute].
Qed.

(** C4, as the code has it: when the body of the DB command raises after
    the session was opened, the close does not run.  Control goes to
    the [except] clause of [run]; the connection and both cursors are
    still open when [run] ends and no release is among the events after
    the open.  The close runs, and releases the write cursor, then the
    read cursor, then the connection, when the body returns. *)
Theorem body_error_skips_session_close (w : world) (st st1 : state) :
  ns_command (args st) = "cmd3" →
  oracle_connect w st = (Ret tt, st1) →
  ∃ con select_cur update_cur,
    session_open st1 con select_cur update_cur ∧
    (∀ e st2, cmd3 w st1 = (Raise e, st2) →
       run w st = (if is_Exception e then run_except w e st2
                   else (Raise e, st2)) ∧
       session_open (run w st).2 con select_cur update_cur ∧
       ∃ evs, trace (run w st).2 = trace st1 ++ evs ∧
              Forall (λ ev, is_release ev = false) evs) ∧
    (∀ st2, cmd3 w st1 = (Ret tt, st2) →
       ∃ s', run w st = (Ret tt, s') ∧
             trace s' = trace st2 ++
                        [EvCursorClose update_cur; EvCursorClose select_cur;
                         EvConnectionClose con] ∧
             session_closed s' con select_cur update_cur).
Proof.
  intros Hcmd Hcon.
  destruct (oracle_connect_opens _ _ _ Hcon) as (c & r & u & Hopen).
  exists c, r, u. split; [done |].
  pose proof (keeps_session_cmd3 w st1) as Hks.
  pose proof (quiet_cmd3 w st1) as (evs & Htr & Hev).
  split.
  - intros e st2 Hbody. rewrite Hbody in Hks, Htr. simpl in Hks, Htr.
    rewrite (run_cmd3_raise _ _ _ _ _ Hcmd Hcon Hbody).
    split; [done |]. destruct (is_Exception e); simpl.
    + split.
      * apply (session_open_same st1); [| done].
        by rewrite keeps_session_run_except.
      * destruct (quiet_run_except w e st2) as (evs' & Htr' & Hev').
        exists (evs ++ evs'). rewrite Htr', Htr, app_assoc.
        split; [done |]. by apply Forall_app.
    + split; [by apply (session_open_same st1) | by exists evs].
  - intros st2 Hbody. rewrite Hbody in Hks. simpl in Hks.
    assert (session_open st2 c r u) as Hopen2
      by by apply (session_open_same st1).
    destruct (oracle_disconnect_open st2 c r u false Hopen2)
      as (s' & Hdis & Htr' & Hclosed).
    exists s'. unfold run, try_except.
    by rewrite (run_cmd3_return _ _ _ _ Hcmd Hcon Hbody), Hdis.
Qed.

(** The theorem at work: the sample installation with the client
    directory on the search path. *)
Lemma body_error_skips_session_close_witness :
  ∃ con select_cur update_cur,
    session_open (connected sample_no_row sample_env)
      con select_cur update_cur ∧
    (∀ e st2, cmd3 sample_no_row (connected sample_no_row sample_env)
              = (Raise e, st2) →
       run sample_no_row (started sample_no_row sample_env)
       = (if is_Exception e then run_except sample_no_row e st2
          else (Raise e, st2)) ∧
       session_open (run sample_no_row (started sample_no_row sample_env)).2
         con select_cur update_cur ∧
       ∃ evs, trace (run sample_no_row (started sample_no_row sample_env)).2
              = trace (connected sample_no_row sample_env) ++ evs ∧
              Forall (λ ev, is_release ev = false) evs) ∧
    (∀ st2, cmd3 sample_no_row (connected sample_no_row sample_env)
            = (Ret tt, st2) →
       ∃ s', run sample_no_row (started sample_no_row sample_env)
             = (Ret tt, s') ∧
             trace s' = trace st2 ++
                        [EvCursorClose update_cur; EvCursorClose select_cur;
                         EvConnectionClose con] ∧
             session_closed s' con select_cur update_cur).
Proof.
  apply (body_error_skips_session_close sample_no_row
           (started sample_no_row sample_env)
           (connected sample_no_row sample_env)).
  - reflexivity.
  - vm_compute. reflexivity.
Defined.

(** The claim of C5 fails whenever the notification goes out: the body of
    the DB command raises, one message is sent, and the program ends with
    exit status 0. *)
Lemma handled_error_exits_with_zero :
  (∃ st2, cmd3 sample_no_row (connected sample_no_row sample_env)
          = (Raise (TypeError "argument of type 'NoneType' is not iterable"),
             st2)) ∧
  program sample_no_row sample_env = Exited 0.
Proof. split; [eexists |]; by vm_compute. Qed.

(** C5, as the code has it: when the body of the DB command raises an
    [Exception], the program logs it with its trace, then either sends
    exactly one message, with subject "EXCEPTION - <program>" and the
    trace in its body, and ends with exit status 0, or fails to notify,
    sends nothing and ends with that failure uncaught. *)
Theorem db_command_error_is_logged_and_notified (w : world)
    (env : gmap string string) (st st1 st2 : state) (e : exn)
    (prog : string) :
  App_init w (initial_state env) = (Ret tt, st) →
  ns_command (args st) = "cmd3" →
  oracle_connect w st = (Ret tt, st1) →
  cmd3 w st1 = (Raise e, st2) →
  is_Exception e = true →
  cfg_lookup (config_contents w) "main" "program" = Some prog →
  ∃ r s' sent,
    main w (initial_state env) = (r, s') ∧
    trace s' = trace st2 ++
               EvLogException ("EXCEPTION - " +:+ exn_str e) e :: sent ∧
    ((program w env = Exited 0 ∧
      ∃ msg, sent = [EvSendMessage msg] ∧
             em_subject msg = "EXCEPTION - " +:+ prog ∧
             em_content msg = NOTIFY_TEXT w prog "EXCEPTION"
                                (format_exc w e +:+ ".") ∧
             em_priority msg = "1") ∨
     (sent = [] ∧ ∃ e', r = Raise e')).
Proof.
  intros Hinit Hcmd Hcon Hbody He Hprog.
  assert (cfg st2 = config_contents w) as Hcfg.
  { pose proof (keeps_cfg_cmd3 w st1) as H2. rewrite Hbody in H2.
    pose proof (keeps_cfg_oracle_connect w st) as H1. rewrite Hcon in H1.
    simpl in *. rewrite H2, H1. by apply App_init_cfg in Hinit. }
  rewrite <- Hcfg in Hprog.
  destruct (run_except_cases w e st2 prog Hprog)
    as (r & s' & sent & Hex & Htr & Hsent).
  assert (main w (initial_state env) = (r, s')) as Hmain.
  { unfold main. rewrite bind_run, Hinit.
    by rewrite (run_cmd3_raise _ _ _ _ _ Hcmd Hcon Hbody), He. }
  exists r, s', sent. split; [done |]. split; [done |].
  destruct Hsent as [(-> & host & sender & ->) | ?]; [left | by right].
  split; [unfold program; by rewrite Hmain |].
  eexists. by split.
Qed.

(** The theorem at work: the sample installation when the query returns
    no row. *)
Lemma db_command_error_is_logged_and_notified_witness :
  ∃ r s' sent,
    main sample_no_row (initial_state sample_env) = (r, s') ∧
    trace s' = trace (cmd3 sample_no_row (connected sample_no_row sample_env)).2
               ++ EvLogException
                    ("EXCEPTION - " +:+
                     exn_str (TypeError "argument of type 'NoneType' is not iterable"))
                    (TypeError "argument of type 'NoneType' is not iterable")
                  :: sent ∧
    ((program sample_no_row sample_env = Exited 0 ∧
      ∃ msg, sent = [EvSendMessage msg] ∧
             em_subject msg = "EXCEPTION - " +:+ "pybase" ∧
             em_content msg =
               NOTIFY_TEXT sample_no_row "pybase" "EXCEPTION"
                 (format_exc sample_no_row
                    (TypeError "argument of type 'NoneType' is not iterable")
                  +:+ ".") ∧
             em_priority msg = "1") ∨
     (sent = [] ∧ ∃ e', r = Raise e')).
Proof.
  apply (db_command_error_is_logged_and_notified sample_no_row sample_env
           (started sample_no_row sample_env)
           (connected sample_no_row sample_env)
           (cmd3 sample_no_row (connected sample_no_row sample_env)).2
           (TypeError "argument of type 'NoneType' is not iterable")
           "pybase").
  - vm_compute. reflexivity.
  - reflexivity.
  - vm_compute. reflexivity.
  - vm_compute. reflexivity.
  - reflexivity.
  - reflexivity.
Defined.

(** ** The privilege gate *)

(** C9: started by an administrator on Windows, or by root elsewhere, the
    program ends in the constructor with the error of [check_admin]:
    the state is the one the interpreter started with, so that no
    configuration was read, no logger created, no line logged and no
    command run; the exit status is 1. *)
Theorem admin_is_refused_before_anything_runs (w : world)
    (env : gmap string string) :
  (os_name w = "nt" ∧ IsUserAnAdmin w ≠ 0) ∨
  (os_name w ≠ "nt" ∧ getuid w = 0) →
  main w (initial_state env)
  = (Raise (RuntimeError "Error! User has admin/root rights!"),
     initial_state env) ∧
  trace (main w (initial_state env)).2 = [] ∧
  cfg (main w (initial_state env)).2 = ∅ ∧
  program w env = Exited 1.
Proof.
  intros Hadmin.
  assert (is_admin w = true) as Ha.
  { unfold is_admin. destruct Hadmin as [[-> Hn] | [Hos ->]].
    - simpl. by apply negb_true_iff, Z.eqb_neq.
    - apply String.eqb_neq in Hos. by rewrite Hos. }
  assert (main w (initial_state env)
          = (Raise (RuntimeError "Error! User has admin/root rights!"),
             initial_state env)) as Hmain.
  { unfold main, App_init, check_admin. unfold_M. simpl. by rewrite Ha. }
  unfold program. by rewrite Hmain.
Qed.

(** The theorem at work: root starts the sample installation. *)
Lemma admin_is_refused_before_anything_runs_witness :
  main sample_root (initial_state sample_env)
  = (Raise (RuntimeError "Error! User has admin/root rights!"),
     initial_state sample_env) ∧
  trace (main sample_root (initial_state sample_env)).2 = [] ∧
  cfg (main sample_root (initial_state sample_env)).2 = ∅ ∧
  program sample_root sample_env = Exited 1.
Proof.
  apply (admin_is_refused_before_anything_runs sample_root sample_env).
  right. split; [discriminate | reflexivity].
Defined.

(** ** The row factory *)

Lemma dict_of_snoc (l : list (string * pyval)) (k : string) (v : pyval) :
  dict_of (l ++ [(k, v)]) = <[k := v]> (dict_of l).
Proof. unfold dict_of. by rewrite foldl_app. Qed.

(** The keys of [dict(pairs)] are the first components. *)
Lemma dom_dict_of (l : list (string * pyval)) :
  dom (dict_of l) = list_to_set (l.*1).
Proof.
  induction l as [|[k v] l IH] using rev_ind.
  - unfold dict_of. simpl. by rewrite dom_empty_L.
  - rewrite dict_of_snoc, dom_insert_L, IH, fmap_app, list_to_set_app_L.
    simpl. set_solver.
Qed.

(** The value of a key is that of its last pair. *)
Lemma dict_of_lookup_last (l : list (string * pyval)) (i : nat)
    (k : string) (v : pyval) :
  l !! i = Some (k, v) →
  (∀ j kv, (i < j)%nat → l !! j = Some kv → kv.1 ≠ k) →
  dict_of l !! k = Some v.
Proof.
  revert i. induction l as [|[k' v'] l IH] using rev_ind; intros i Hi Hlast.
  - done.
  - rewrite dict_of_snoc. destruct (decide (i = length l)) as [-> | Hne].
    + rewrite lookup_app_r, Nat.sub_diag in Hi by lia.
      injection Hi as -> ->. by rewrite lookup_insert_eq.
    + assert (i < length l)%nat as Hlt.
      { apply lookup_lt_Some in Hi. rewrite length_app in Hi. simpl in Hi. lia. }
      rewrite lookup_app_l in Hi by done.
      rewrite lookup_insert_ne.
      * apply (IH i Hi). intros j kv Hj Hkv. apply (Hlast j kv Hj).
        rewrite lookup_app_l; [done |]. by apply lookup_lt_Some in Hkv.
      * apply (Hlast (length l) (k', v') Hlt).
        by rewrite lookup_app_r, Nat.sub_diag by lia.
Qed.

Lemma fst_zip_take {A B} (l : list A) (k : list B) :
  (zip l k).*1 = take (length l `min` length k) l.
Proof.
  revert k. induction l as [|x l IH]; intros [|y k]; simpl; [done.. |].
  by rewrite IH.
Qed.

Lemma length_null_to_empty (args : list pyval) :
  length (null_to_empty <$> args) = length args.
Proof. apply length_fmap. Qed.

(** The keys of a row: the lower-cased names of the columns that have a
    value. *)
Lemma dom_oracle_row_factory (description : list column_desc)
    (args : list pyval) :
  dom (oracle_row_factory description args)
  = list_to_set (take (length description `min` length args)
                   (column_names description)).
Proof.
  unfold oracle_row_factory. rewrite dom_dict_of, fst_zip_take.
  unfold column_names. by rewrite !length_fmap.
Qed.

(** The value at the name of a column that no later column shares. *)
Lemma oracle_row_factory_lookup (description : list column_desc)
    (args : list pyval) (i : nat) (d : column_desc) (a : pyval) :
  description !! i = Some d →
  args !! i = Some a →
  (∀ j d', (i < j)%nat → description !! j = Some d' →
           str_lower (cd_name d') ≠ str_lower (cd_name d)) →
  oracle_row_factory description args !! str_lower (cd_name d)
  = Some (null_to_empty a).
Proof.
  intros Hd Ha Hlast. unfold oracle_row_factory.
  apply (dict_of_lookup_last _ i).
  - rewrite lookup_zip_with. unfold column_names.
    by rewrite !list_lookup_fmap, Hd, Ha.
  - intros j [k v] Hj Hkv. rewrite lookup_zip_with in Hkv.
    unfold column_names in Hkv. rewrite !list_lookup_fmap in Hkv.
    destruct (description !! j) as [d'|] eqn:Hd'; [| done].
    destruct (args !! j) as [a'|]; [| done].
    simpl in Hkv. injection Hkv as <- <-. simpl. by apply (Hlast j).
Qed.

(** The claim of C7 fails when two columns share a name, as the two [ID]
    columns of a join do: the row has the value of the last of them, not
    the value of each. *)
Lemma duplicate_column_names_keep_last_value :
  length id_columns = length [PyInt 1; PyInt 2] ∧
  oracle_row_factory id_columns [PyInt 1; PyInt 2] = {["id" := PyInt 2]} ∧
  ¬ (∀ i d a,
       id_columns !! i = Some d →
       [PyInt 1; PyInt 2] !! i = Some a →
       oracle_row_factory id_columns [PyInt 1; PyInt 2]
         !! str_lower (cd_name d) = Some (null_to_empty a)).
Proof.
  split; [done |]. split; [by vm_compute |].
  intros H. specialize (H 0%nat _ (PyInt 1) eq_refl eq_refl).
  vm_compute in H. discriminate.
Qed.

(** C7, as the code has it: for a description and a tuple of the same
    length, the keys of the row are the lower-cased column names, and
    the value at the name of a column is the value of the tuple at the
    position of the last column of that name, [None] replaced by the
    empty string and any other value unchanged; so, when the lower-cased
    names are distinct, each column has its own value.  For the columns
    COL1, COL2 and the tuple [(None, "x")] the row is
    [{"col1": "", "col2": "x"}]. *)
Theorem row_factory_maps_names_to_values (description : list column_desc)
    (args : list pyval) :
  length description = length args →
  dom (oracle_row_factory description args)
  = list_to_set (column_names description) ∧
  (∀ i d a,
     description !! i = Some d →
     args !! i = Some a →
     (∀ j d', (i < j)%nat → description !! j = Some d' →
              str_lower (cd_name d') ≠ str_lower (cd_name d)) →
     oracle_row_factory description args !! str_lower (cd_name d)
     = Some (null_to_empty a)) ∧
  null_to_empty PyNone = PyStr "" ∧
  (∀ a, a ≠ PyNone → null_to_empty a = a) ∧
  (∀ t1 n1 t2 n2,
     oracle_row_factory
       [ {| cd_name := "COL1"; cd_type := t1; cd_null_ok := n1 |};
         {| cd_name := "COL2"; cd_type := t2; cd_null_ok := n2 |} ]
       [PyNone; PyStr "x"]
     = {[ "col1" := PyStr ""; "col2" := PyStr "x" ]}).
Proof.
  intros Hlen. split.
  { rewrite dom_oracle_row_factory, Hlen, Nat.min_id.
    rewrite take_ge; [done |]. unfold column_names.
    rewrite length_fmap. lia. }
  split; [intros i d a; apply oracle_row_factory_lookup |].
  split; [done |]. split; [by intros [] |].
  intros t1 n1 t2 n2. by vm_compute.
Qed.

(** The theorem at work: the columns and the tuple of the example. *)
Lemma row_factory_maps_names_to_values_witness :
  dom (oracle_row_factory
         [ {| cd_name := "COL1"; cd_type := "STRING"; cd_null_ok := true |};
           {| cd_name := "COL2"; cd_type := "STRING"; cd_null_ok := true |} ]
         [PyNone; PyStr "x"])
  = list_to_set
      (column_names
         [ {| cd_name := "COL1"; cd_type := "STRING"; cd_null_ok := true |};
           {| cd_name := "COL2"; cd_type := "STRING"; cd_null_ok := true |} ]) ∧
  (∀ i d a,
     [ {| cd_name := "COL1"; cd_type := "STRING"; cd_null_ok := true |};
       {| cd_name := "COL2"; cd_type := "STRING"; cd_null_ok := true |} ]
       !! i = Some d →
     [PyNone; PyStr "x"] !! i = Some a →
     (∀ j d', (i < j)%nat →
              [ {| cd_name := "COL1"; cd_type := "STRING"; cd_null_ok := true |};
                {| cd_name := "COL2"; cd_type := "STRING"; cd_null_ok := true |} ]
                !! j = Some d' →
              str_lower (cd_name d') ≠ str_lower (cd_name d)) →
     oracle_row_factory
       [ {| cd_name := "COL1"; cd_type := "STRING"; cd_null_ok := true |};
         {| cd_name := "COL2"; cd_type := "STRING"; cd_null_ok := true |} ]
       [PyNone; PyStr "x"] !! str_lower (cd_name d)
     = Some (null_to_empty a)) ∧
  null_to_empty PyNone = PyStr "" ∧
  (∀ a, a ≠ PyNone → null_to_empty a = a) ∧
  (∀ t1 n1 t2 n2,
     oracle_row_factory
       [ {| cd_name := "COL1"; cd_type := t1; cd_null_ok := n1 |};
         {| cd_name := "COL2"; cd_type := t2; cd_null_ok := n2 |} ]
       [PyNone; PyStr "x"]
     = {[ "col1" := PyStr ""; "col2" := PyStr "x" ]}).
Proof.
  apply (row_factory_maps_names_to_values
           [ {| cd_name := "COL1"; cd_type := "STRING"; cd_null_ok := true |};
             {| cd_name := "COL2"; cd_type := "STRING"; cd_null_ok := true |} ]
           [PyNone; PyStr "x"]).
  reflexivity.
Defined.

Lemma length_remove_dups_le (l : list string) :
  (length (remove_dups l) ≤ length l)%nat.
Proof. induction l as [|x l IH]; simpl; [done |]. case_decide; simpl; lia. Qed.

Lemma length_remove_dups_NoDup (l : list string) :
  length (remove_dups l) = length l ↔ NoDup l.
Proof.
  induction l as [|x l IH]; simpl.
  - split; [constructor | done].
  - pose proof (length_remove_dups_le l). rewrite NoDup_cons.
    case_decide; simpl.
    + split; [lia | by intros [? _]].
    + rewrite <- IH. split; [by intros [= ?] | by intros [_ ->]].
Qed.

Lemma size_oracle_row_factory (description : list column_desc)
    (args : list pyval) :
  size (oracle_row_factory description args)
  = length (remove_dups (take (length description `min` length args)
                           (column_names description))).
Proof.
  rewrite <- (size_dom (D := gset string) (oracle_row_factory description args)).
  rewrite dom_oracle_row_factory.
  set (names := take _ (column_names description)).
  rewrite <- (size_list_to_set (C := gset string) (remove_dups names))
    by apply NoDup_remove_dups.
  f_equal. apply set_eq. intros k.
  by rewrite !elem_of_list_to_set, elem_of_remove_dups.
Qed.

(** The claim of C10 fails when two of the columns that have a value
    share a name: two columns, three values, one entry. *)
Lemma duplicate_names_give_fewer_entries :
  length id_columns ≠ length [PyInt 1; PyInt 2; PyInt 3] ∧
  oracle_row_factory id_columns [PyInt 1; PyInt 2; PyInt 3]
  = {["id" := PyInt 2]} ∧
  size (oracle_row_factory id_columns [PyInt 1; PyInt 2; PyInt 3])
  ≠ (length id_columns `min` length [PyInt 1; PyInt 2; PyInt 3])%nat.
Proof.
  split; [done |]. split; [by vm_compute |].
  rewrite size_oracle_row_factory. by vm_compute.
Qed.

(** C10, as the code has it: whatever the two lengths, the factory returns
    the row of the first [n] columns and the first [n] values, [n] the
    smaller of the lengths; the values beyond are dropped, and the keys of
    the row are the lower-cased names of those first [n] columns and no
    other.  The row has one entry for each distinct name among them: at
    most [n], and [n] exactly when these names are distinct.  The factory
    is a total function: it does not raise. *)
Theorem row_factory_truncates_to_shorter (description : list column_desc)
    (args : list pyval) :
  let n := (length description `min` length args)%nat in
  oracle_row_factory description args
  = oracle_row_factory (take n description) (take n args) ∧
  dom (oracle_row_factory description args)
  = list_to_set (take n (column_names description)) ∧
  size (oracle_row_factory description args)
  = length (remove_dups (take n (column_names description))) ∧
  (size (oracle_row_factory description args) ≤ n)%nat ∧
  (size (oracle_row_factory description args) = n
   ↔ NoDup (take n (column_names description))).
Proof.
  intros n.
  assert (length (take n (column_names description)) = n) as Hn.
  { rewrite length_take. unfold column_names. rewrite length_fmap. lia. }
  split.
  { unfold oracle_row_factory, column_names.
    rewrite !fmap_take. symmetry. apply f_equal.
    apply zip_with_take_both'; rewrite !length_fmap; lia. }
  split; [apply dom_oracle_row_factory |].
  split; [apply size_oracle_row_factory |].
  rewrite size_oracle_row_factory. fold n. split.
  - rewrite <- Hn at 2. apply length_remove_dups_le.
  - rewrite <- length_remove_dups_NoDup. by rewrite Hn.
Qed.

(** * Further properties of the code *)

(** ** The relaunch, process by process *)

Lemma extend_var_spec (var : string) (environ : gmap string string)
    (m : string) :
  extend_var var environ m
  = <[var := match environ !! var with
             | Some old => if String.eqb old "" then m else old +:+ ";" +:+ m
             | None => m
             end]> environ.
Proof.
  unfold extend_var, environ_get.
  destruct (environ !! var) as [old|]; [| done].
  simpl. by destruct (String.eqb old "").
Qed.

Lemma relaunch_environ_spec (os : string) (environ : gmap string string)
    (m : string) :
  relaunch_environ os environ m
  = <[search_path_var os :=
        match environ !! search_path_var os with
        | Some old => if String.eqb old "" then m else old +:+ ";" +:+ m
        | None => m
        end]> environ.
Proof.
  unfold relaunch_environ, search_path_var.
  destruct (String.eqb os "nt"); apply extend_var_spec.
Qed.

(** A process that finds the probe true is not replaced. *)
Lemma probe_true_exits (w : world) (env : gmap string string) :
  (∀ m, cfg_lookup (config_contents w) "oracle" "ic_path" = Some m →
        ∃ v, ora_check (os_name w) env m = Ok v ∧ truthy v = true) →
  ∃ status, program w env = Exited status.
Proof.
  intros Hprobe. destruct (program w env) as [status | p x env'] eqn:H.
  - by exists status.
  - apply program_replaced in H as (m & v & Hm & Hv & Ht & _).
    destruct (Hprobe m Hm) as (v' & Hv' & Ht'). congruence.
Qed.

Lemma exits_without_relaunch (w : world) (env : gmap string string)
    (status : Z) (fuel : nat) :
  program w env = Exited status →
  invocation (S fuel) w env = Some (O, status).
Proof. intros H. simpl. by rewrite H. Qed.

(** X1: with an empty [ic_path] in the configuration the program is never
    relaunched, on any platform and in any environment. *)
Theorem empty_marker_never_relaunches (w : world)
    (env : gmap string string) (fuel : nat) :
  cfg_lookup (config_contents w) "oracle" "ic_path" = Some "" →
  ∃ status, program w env = Exited status ∧
            invocation (S fuel) w env = Some (O, status).
Proof.
  intros Hm. destruct (probe_true_exits w env) as (status & Hp).
  - intros m Hm'. assert (m = "") as -> by congruence.
    by exists (PyBool true).
  - exists status. split; [done | by apply exits_without_relaunch].
Qed.

Lemma empty_marker_never_relaunches_witness :
  ∃ status,
    program (with_config_contents (sample_config "") sample_posix) ∅
    = Exited status ∧
    invocation 1 (with_config_contents (sample_config "") sample_posix) ∅
    = Some (O, status).
Proof.
  apply (empty_marker_never_relaunches
           (with_config_contents (sample_config "") sample_posix) ∅ O).
  reflexivity.
Defined.

(** X2: on Windows and on POSIX, when the search-path variable already
    contains the marker the program is not relaunched. *)
Theorem marker_on_path_never_relaunches (w : world)
    (env : gmap string string) (m p : string) (fuel : nat) :
  os_name w = "nt" ∨ os_name w = "posix" →
  cfg_lookup (config_contents w) "oracle" "ic_path" = Some m →
  env !! search_path_var (os_name w) = Some p →
  contains p m →
  ∃ status, program w env = Exited status ∧
            invocation (S fuel) w env = Some (O, status).
Proof.
  intros Hos Hm Hp Hc. destruct (probe_true_exits w env) as (status & Hprog).
  - intros m' Hm'. assert (m' = m) as -> by congruence.
    destruct (ora_check_spec (os_name w) env m Hos) as (v & Hv & Hiff).
    exists v. split; [done |]. apply Hiff. right. eauto.
  - exists status. split; [done | by apply exits_without_relaunch].
Qed.

Lemma marker_on_path_never_relaunches_witness :
  ∃ status, program sample_posix sample_env = Exited status ∧
            invocation 1 sample_posix sample_env = Some (O, status).
Proof.
  apply (marker_on_path_never_relaunches sample_posix sample_env
           "/opt/oic" "/usr/lib:/opt/oic" O).
  - right. reflexivity.
  - reflexivity.
  - reflexivity.
  - exists "/usr/lib:", "". reflexivity.
Defined.

(** X3: the relaunch branch of the wrapper changes the search-path
    variable of the platform and nothing else.  Every other variable
    keeps its value; the variable becomes the marker when it was absent
    or empty, and otherwise its old value, a semicolon and the marker;
    the events, the session and the configuration are untouched; then
    [os.execv] is called, on Windows with the interpreter and the
    interpreter in front of the command line, elsewhere with the script
    and the command line. *)
Theorem relaunch_changes_only_the_search_path (w : world) (func : M unit)
    (st : state) (m : string) (v : pyval) :
  cfg_lookup (cfg st) "oracle" "ic_path" = Some m →
  ora_check (os_name w) (environ st) m = Ok v →
  truthy v = false →
  ∃ r st',
    oracle_decorator w func st = (r, st') ∧
    (∀ k, k ≠ search_path_var (os_name w) →
          environ st' !! k = environ st !! k) ∧
    environ st' !! search_path_var (os_name w)
    = Some (match environ st !! search_path_var (os_name w) with
            | Some old => if String.eqb old "" then m else old +:+ ";" +:+ m
            | None => m
            end) ∧
    trace st' = trace st ∧ session_of st' = session_of st ∧
    cfg st' = cfg st ∧
    match execv w with
    | Some e => r = Raise e
    | None =>
        r = if String.eqb (os_name w) "nt"
            then Execv (sys_executable w) (sys_executable w :: sys_argv w)
            else Execv (sys_argv0 w) (sys_argv w)
    end.
Proof.
  intros Hcfg Hv Ht. rewrite (wrapper_relaunch _ _ _ _ _ Hcfg Hv Ht).
  unfold os_execv, with_environ.
  exists (match execv w with
          | Some e => Raise e
          | None => if String.eqb (os_name w) "nt"
                    then Execv (sys_executable w) (sys_executable w :: sys_argv w)
                    else Execv (sys_argv0 w) (sys_argv w)
          end), (set_environ (relaunch_environ (os_name w) (environ st) m) st).2.
  split; [by destruct (execv w), (String.eqb (os_name w) "nt") |].
  simpl. rewrite relaunch_environ_spec.
  split; [by intros k Hk; rewrite lookup_insert_ne |].
  split; [by rewrite lookup_insert_eq |].
  do 3 (split; [done |]). by destruct (execv w).
Qed.

Lemma relaunch_changes_only_the_search_path_witness :
  ∃ r st',
    oracle_decorator (with_os_name "nt" sample_posix)
      (oracle_connect_body (with_os_name "nt" sample_posix))
      (started (with_os_name "nt" sample_posix) {["PATH" := "C:\Windows"]})
    = (r, st') ∧
    (∀ k, k ≠ search_path_var (os_name (with_os_name "nt" sample_posix)) →
          environ st' !! k
          = environ (started (with_os_name "nt" sample_posix)
                       {["PATH" := "C:\Windows"]}) !! k) ∧
    environ st' !! search_path_var (os_name (with_os_name "nt" sample_posix))
    = Some (match environ (started (with_os_name "nt" sample_posix)
                             {["PATH" := "C:\Windows"]})
                  !! search_path_var (os_name (with_os_name "nt" sample_posix))
            with
            | Some old => if String.eqb old "" then "/opt/oic"
                          else old +:+ ";" +:+ "/opt/oic"
            | None => "/opt/oic"
            end) ∧
    trace st' = trace (started (with_os_name "nt" sample_posix)
                         {["PATH" := "C:\Windows"]}) ∧
    session_of st' = session_of (started (with_os_name "nt" sample_posix)
                                   {["PATH" := "C:\Windows"]}) ∧
    cfg st' = cfg (started (with_os_name "nt" sample_posix)
                     {["PATH" := "C:\Windows"]}) ∧
    match execv (with_os_name "nt" sample_posix) with
    | Some e => r = Raise e
    | None =>
        r = if String.eqb (os_name (with_os_name "nt" sample_posix)) "nt"
            then Execv (sys_executable (with_os_name "nt" sample_posix))
                   (sys_executable (with_os_name "nt" sample_posix)
                    :: sys_argv (with_os_name "nt" sample_posix))
            else Execv (sys_argv0 (with_os_name "nt" sample_posix))
                   (sys_argv (with_os_name "nt" sample_posix))
    end.
Proof.
  apply (relaunch_changes_only_the_search_path
           (with_os_name "nt" sample_posix) _
           (started (with_os_name "nt" sample_posix) {["PATH" := "C:\Windows"]})
           "/opt/oic" (PyBool false)).
  - vm_compute. reflexivity.
  - vm_compute. reflexivity.
  - reflexivity.
Defined.

(** The process started by a relaunch is not replaced again. *)
Lemma relaunched_process_exits (w : world) (env : gmap string string)
    (m : string) :
  os_name w = "nt" ∨ os_name w = "posix" →
  cfg_lookup (config_contents w) "oracle" "ic_path" = Some m →
  ∃ status, program w (relaunch_environ (os_name w) env m) = Exited status.
Proof.
  intros Hos Hm. apply probe_true_exits. intros m' Hm'.
  assert (m' = m) as -> by congruence.
  destruct (ora_check_spec (os_name w)
              (relaunch_environ (os_name w) env m) m Hos) as (v & Hv & Hiff).
  exists v. split; [done |]. apply Hiff. right. apply relaunch_environ_lookup.
Qed.

(** What the first process does when the DB command finds the marker
    missing. *)
Lemma main_relaunch (w : world) (env : gmap string string) (st : state)
    (m : string) (v : pyval) :
  App_init w (initial_state env) = (Ret tt, st) →
  ns_command (args st) = "cmd3" →
  cfg_lookup (config_contents w) "oracle" "ic_path" = Some m →
  ora_check (os_name w) env m = Ok v →
  truthy v = false →
  main w (initial_state env)
  = try_except
      (λ s, os_execv w
              (if String.eqb (os_name w) "nt" then sys_executable w
               else sys_argv0 w)
              (if String.eqb (os_name w) "nt"
               then sys_executable w :: sys_argv w else sys_argv w)
              (with_environ (relaunch_environ (os_name w) env m) s))
      (run_except w) st.
Proof.
  intros Hinit Hcmd Hm Hv Ht.
  pose proof (keeps_environ_App_init w (initial_state env)) as Henv.
  rewrite Hinit in Henv. simpl in Henv.
  apply App_init_cfg in Hinit as Hcfg. rewrite <- Hcfg in Hm.
  rewrite <- Henv in Hv.
  unfold main. rewrite bind_run, Hinit. unfold run, try_except.
  rewrite (run_try_cmd3 _ _ Hcmd), bind_run. unfold oracle_connect.
  rewrite (wrapper_relaunch _ _ _ _ _ Hm Hv Ht), Henv.
  unfold os_execv. by destruct (execv w).
Qed.

(** X4: when the DB command is reached on Windows or POSIX, the marker is
    not on the search path and [os.execv] succeeds, the process is
    replaced by the same program in the extended environment, and the
    invocation as a whole relaunches exactly once. *)
Theorem missing_marker_relaunches_exactly_once (w : world)
    (env : gmap string string) (st : state) (m : string) (v : pyval)
    (fuel : nat) :
  os_name w = "nt" ∨ os_name w = "posix" →
  App_init w (initial_state env) = (Ret tt, st) →
  ns_command (args st) = "cmd3" →
  cfg_lookup (config_contents w) "oracle" "ic_path" = Some m →
  ora_check (os_name w) env m = Ok v →
  truthy v = false →
  execv w = None →
  program w env
  = Replaced
      (if String.eqb (os_name w) "nt" then sys_executable w else sys_argv0 w)
      (if String.eqb (os_name w) "nt" then sys_executable w :: sys_argv w
       else sys_argv w)
      (relaunch_environ (os_name w) env m) ∧
  ∃ status, invocation (S (S fuel)) w env = Some (1%nat, status).
Proof.
  intros Hos Hinit Hcmd Hm Hv Ht Hexec.
  assert (program w env
          = Replaced
              (if String.eqb (os_name w) "nt" then sys_executable w
               else sys_argv0 w)
              (if String.eqb (os_name w) "nt"
               then sys_executable w :: sys_argv w else sys_argv w)
              (relaunch_environ (os_name w) env m)) as Hprog.
  { unfold program. rewrite (main_relaunch _ _ _ _ _ Hinit Hcmd Hm Hv Ht).
    unfold try_except, os_execv. by rewrite Hexec. }
  split; [done |].
  destruct (relaunched_process_exits w env m Hos Hm) as (status & Hnext).
  exists status. change (invocation (S (S fuel)) w env) with
    (match program w env with
     | Exited status => Some (O, status)
     | Replaced _ _ env' =>
         match invocation (S fuel) w env' with
         | Some (n, status) => Some (S n, status)
         | None => None
         end
     end).
  by rewrite Hprog, (exits_without_relaunch _ _ _ _ Hnext).
Qed.

Lemma missing_marker_relaunches_exactly_once_witness :
  program sample_posix ∅
  = Replaced
      (if String.eqb (os_name sample_posix) "nt"
       then sys_executable sample_posix else sys_argv0 sample_posix)
      (if String.eqb (os_name sample_posix) "nt"
       then sys_executable sample_posix :: sys_argv sample_posix
       else sys_argv sample_posix)
      (relaunch_environ (os_name sample_posix) ∅ "/opt/oic") ∧
  ∃ status, invocation 2 sample_posix ∅ = Some (1%nat, status).
Proof.
  apply (missing_marker_relaunches_exactly_once sample_posix ∅
           (started sample_posix ∅) "/opt/oic" PyNone O).
  - right. reflexivity.
  - vm_compute. reflexivity.
  - reflexivity.
  - reflexivity.
  - vm_compute. reflexivity.
  - reflexivity.
  - reflexivity.
Defined.

(** X5: when [os.execv] itself fails with an [Exception] in the DB
    command, no process is started: the error arrives at the [except]
    clause of [run], which works in the environment already extended
    with the marker, and the session was never opened. *)
Theorem failed_relaunch_is_handled_by_run (w : world) (st : state)
    (m : string) (v : pyval) (e : exn) :
  ns_command (args st) = "cmd3" →
  cfg_lookup (cfg st) "oracle" "ic_path" = Some m →
  ora_check (os_name w) (environ st) m = Ok v →
  truthy v = false →
  execv w = Some e →
  is_Exception e = true →
  run w st
  = run_except w e
      (with_environ (relaunch_environ (os_name w) (environ st) m) st) ∧
  session_of (run w st).2 = session_of st ∧
  ∀ p x, (run w st).1 ≠ Execv p x.
Proof.
  intros Hcmd Hm Hv Ht Hexec He.
  assert (run w st
          = run_except w e
              (with_environ (relaunch_environ (os_name w) (environ st) m) st))
    as Hrun.
  { unfold run, try_except. rewrite (run_try_cmd3 _ _ Hcmd), bind_run.
    unfold oracle_connect. rewrite (wrapper_relaunch _ _ _ _ _ Hm Hv Ht).
    unfold os_execv. rewrite Hexec. unfold_M. by rewrite He. }
  split; [done |]. rewrite Hrun. split.
  - by rewrite keeps_session_run_except.
  - apply no_exec_run_except.
Qed.

Lemma failed_relaunch_is_handled_by_run_witness :
  run (with_execv (Some (OSError "Exec format error")) sample_posix)
    (started (with_execv (Some (OSError "Exec format error")) sample_posix) ∅)
  = run_except (with_execv (Some (OSError "Exec format error")) sample_posix)
      (OSError "Exec format error")
      (with_environ
         (relaunch_environ
            (os_name (with_execv (Some (OSError "Exec format error"))
                        sample_posix))
            (environ (started (with_execv (Some (OSError "Exec format error"))
                                 sample_posix) ∅))
            "/opt/oic")
         (started (with_execv (Some (OSError "Exec format error"))
                     sample_posix) ∅)) ∧
  session_of
    (run (with_execv (Some (OSError "Exec format error")) sample_posix)
       (started (with_execv (Some (OSError "Exec format error"))
                   sample_posix) ∅)).2
  = session_of (started (with_execv (Some (OSError "Exec format error"))
                           sample_posix) ∅) ∧
  ∀ p x,
    (run (with_execv (Some (OSError "Exec format error")) sample_posix)
       (started (with_execv (Some (OSError "Exec format error"))
                   sample_posix) ∅)).1 ≠ Execv p x.
Proof.
  apply (failed_relaunch_is_handled_by_run
           (with_execv (Some (OSError "Exec format error")) sample_posix)
           (started (with_execv (Some (OSError "Exec format error"))
                       sample_posix) ∅)
           "/opt/oic" PyNone (OSError "Exec format error")).
  - vm_compute. reflexivity.
  - vm_compute. reflexivity.
  - vm_compute. reflexivity.
  - reflexivity.
  - reflexivity.
  - reflexivity.
Defined.

(** ** The session, beyond the open and the close that succeed *)

Lemma cfg_get_Ret_inv (s : state) (section key v : string) (s' : state) :
  cfg_get section key s = (Ret v, s') →
  s' = s ∧ cfg_lookup (cfg s) section key = Some v.
Proof.
  destruct (cfg_get_cases s section key) as [(v' & Hl & ->) | (k & _ & ->)];
    [| done].
  by intros [= <- <-].
Qed.

Lemma attempt_Ret_inv (r : option exn) (s : state) (x : unit) (s' : state) :
  attempt r s = (Ret x, s') → s' = s ∧ r = None.
Proof. destruct r; [done |]. by intros [= <-]. Qed.

Lemma new_object_Ret_inv (s : state) (h : handle) (s' : state) :
  new_object s = (Ret h, s') →
  (h ∉ dom (objects s)) ∧
  s' = (set_objects (<[h := true]> (objects s)) s).2.
Proof.
  unfold new_object. unfold_M. simpl. intros [= <- <-].
  split; [apply is_fresh | done].
Qed.

(** What the body of [oracle_connect] leaves when it returns. *)
Lemma oracle_connect_body_spec (w : world) (s s1 : state) :
  oracle_connect_body w s = (Ret tt, s1) →
  ∃ con select_cur update_cur login password host sid,
    cfg_lookup (cfg s) "oracle" "login" = Some login ∧
    cfg_lookup (cfg s) "oracle" "password" = Some password ∧
    cfg_lookup (cfg s) "oracle" "host" = Some host ∧
    cfg_lookup (cfg s) "oracle" "sid" = Some sid ∧
    connect w = None ∧
    (con ∉ dom (objects s)) ∧ (select_cur ∉ dom (objects s)) ∧
    (update_cur ∉ dom (objects s)) ∧
    session_open s1 con select_cur update_cur ∧
    objects s1
    = <[update_cur := true]>
        (<[select_cur := true]> (<[con := true]> (objects s))) ∧
    environ s1 = environ s ∧ cfg s1 = cfg s ∧
    trace s1
    = trace s ++
      [EvLogInfo ("Init Oracle. Database - "
                  +:+ login +:+ "@" +:+ host +:+ "/" +:+ sid);
       EvConnect (login +:+ "/" +:+ password +:+ "@" +:+ host +:+ "/" +:+ sid)
         con;
       EvCursor con select_cur; EvCursor con update_cur].
Proof.
  unfold oracle_connect_body. intros H.
  apply bind_Ret_inv in H as (login & ? & [-> Hlogin]%cfg_get_Ret_inv & H).
  apply bind_Ret_inv in H as (host & ? & [-> Hhost]%cfg_get_Ret_inv & H).
  apply bind_Ret_inv in H as (sid & ? & [-> Hsid]%cfg_get_Ret_inv & H).
  apply bind_Ret_inv in H as ([] & s2 & [= <-] & H).
  apply bind_Ret_inv in H as (u & ? & [-> Hu]%cfg_get_Ret_inv & H).
  apply bind_Ret_inv in H as (p & ? & [-> Hp]%cfg_get_Ret_inv & H).
  apply bind_Ret_inv in H as (h & ? & [-> Hh]%cfg_get_Ret_inv & H).
  apply bind_Ret_inv in H as (sd & ? & [-> Hsd]%cfg_get_Ret_inv & H).
  apply bind_Ret_inv in H as ([] & ? & [-> Hconnect]%attempt_Ret_inv & H).
  simpl in Hu, Hp, Hh, Hsd.
  assert (u = login) as -> by congruence.
  assert (h = host) as -> by congruence.
  assert (sd = sid) as -> by congruence.
  apply bind_Ret_inv in H as (con & ? & [Hcon ->]%new_object_Ret_inv & H).
  simpl in Hcon, H.
  apply bind_Ret_inv in H as ([] & ? & [= <-] & H). simpl in H.
  apply bind_Ret_inv in H as (r & ? & [Hr ->]%new_object_Ret_inv & H).
  simpl in Hr, H.
  apply bind_Ret_inv in H as ([] & ? & [= <-] & H). simpl in H.
  apply bind_Ret_inv in H as (upd & ? & [Hupd ->]%new_object_Ret_inv & H).
  simpl in Hupd, H.
  apply bind_Ret_inv in H as ([] & ? & [= <-] & H). simpl in H.
  injection H as <-.
  exists con, r, upd, login, p, host, sid.
  do 5 (split; [done |]). split; [done |].
  split; [rewrite dom_insert_L in Hr; set_solver |].
  split; [rewrite !dom_insert_L in Hupd; set_solver |].
  split.
  { unfold session_open. simpl. do 3 (split; [done |]).
    by apply three_new_objects. }
  simpl. do 3 (split; [done |]). by rewrite <- !app_assoc.
Qed.

(** X6: a successful [oracle_connect] imports the driver, logs the
    database without the password, and opens one connection and two
    cursors on it.  The three objects are new, the objects that existed
    keep their state, the environment and the configuration are
    unchanged, and the events are the import, the log line, the connect
    with [login/password@host/sid] and the two cursors, in this order. *)
Theorem connect_opens_a_new_session (w : world) (s s1 : state) :
  oracle_connect w s = (Ret tt, s1) →
  ∃ con select_cur update_cur login password host sid,
    cfg_lookup (cfg s) "oracle" "login" = Some login ∧
    cfg_lookup (cfg s) "oracle" "password" = Some password ∧
    cfg_lookup (cfg s) "oracle" "host" = Some host ∧
    cfg_lookup (cfg s) "oracle" "sid" = Some sid ∧
    session_open s1 con select_cur update_cur ∧
    (con ∉ dom (objects s)) ∧ (select_cur ∉ dom (objects s)) ∧
    (update_cur ∉ dom (objects s)) ∧
    (∀ h, h ∈ dom (objects s) → objects s1 !! h = objects s !! h) ∧
    environ s1 = environ s ∧ cfg s1 = cfg s ∧
    trace s1
    = trace s ++
      [EvImport "cx_Oracle";
       EvLogInfo ("Init Oracle. Database - "
                  +:+ login +:+ "@" +:+ host +:+ "/" +:+ sid);
       EvConnect (login +:+ "/" +:+ password +:+ "@" +:+ host +:+ "/" +:+ sid)
         con;
       EvCursor con select_cur; EvCursor con update_cur].
Proof.
  unfold oracle_connect, oracle_decorator. intros H.
  apply bind_Ret_inv in H as (m & ? & [-> Hm]%cfg_get_Ret_inv & H).
  apply bind_Ret_inv in H as (? & ? & [= <- <-] & H).
  apply bind_Ret_inv in H as (v & s5 & Hv & H).
  assert (s5 = s) as ->.
  { unfold lift in Hv. destruct (ora_check _ _ _); [by injection Hv | done]. }
  destruct (truthy v).
  - apply bind_Ret_inv in H as ([] & ? & [-> Himp]%attempt_Ret_inv & H).
    apply bind_Ret_inv in H as ([] & s7 & [= <-] & H).
    apply oracle_connect_body_spec in H
      as (con & r & u & login & p & host & sid & Hl & Hp & Hh & Hs & _ &
          Hcon & Hr & Hu & Hopen & Hobj & Henv & Hcfg & Htr).
    simpl in *. exists con, r, u, login, p, host, sid.
    do 8 (split; [done |]). split.
    { intros h Hh'. rewrite Hobj.
      rewrite !lookup_insert_ne; [done | set_solver..]. }
    do 2 (split; [done |]). by rewrite Htr, <- app_assoc.
  - destruct (String.eqb (os_name w) "nt");
      apply bind_Ret_inv in H as (? & s6 & _ & H);
      unfold os_execv in H; by destruct (execv w).
Qed.

Lemma connect_opens_a_new_session_witness :
  ∃ con select_cur update_cur login password host sid,
    cfg_lookup (cfg (started sample_posix sample_env)) "oracle" "login"
    = Some login ∧
    cfg_lookup (cfg (started sample_posix sample_env)) "oracle" "password"
    = Some password ∧
    cfg_lookup (cfg (started sample_posix sample_env)) "oracle" "host"
    = Some host ∧
    cfg_lookup (cfg (started sample_posix sample_env)) "oracle" "sid"
    = Some sid ∧
    session_open (connected sample_posix sample_env)
      con select_cur update_cur ∧
    (con ∉ dom (objects (started sample_posix sample_env))) ∧
    (select_cur ∉ dom (objects (started sample_posix sample_env))) ∧
    (update_cur ∉ dom (objects (started sample_posix sample_env))) ∧
    (∀ h, h ∈ dom (objects (started sample_posix sample_env)) →
          objects (connected sample_posix sample_env) !! h
          = objects (started sample_posix sample_env) !! h) ∧
    environ (connected sample_posix sample_env)
    = environ (started sample_posix sample_env) ∧
    cfg (connected sample_posix sample_env)
    = cfg (started sample_posix sample_env) ∧
    trace (connected sample_posix sample_env)
    = trace (started sample_posix sample_env) ++
      [EvImport "cx_Oracle";
       EvLogInfo ("Init Oracle. Database - "
                  +:+ login +:+ "@" +:+ host +:+ "/" +:+ sid);
       EvConnect (login +:+ "/" +:+ password +:+ "@" +:+ host +:+ "/" +:+ sid)
         con;
       EvCursor con select_cur; EvCursor con update_cur].
Proof.
  apply (connect_opens_a_new_session sample_posix
           (started sample_posix sample_env)
           (connected sample_posix sample_env)).
  vm_compute. reflexivity.
Defined.

Lemma attrs_kept_bind {A B} (m : M A) (f : A → M B) :
  keeps session_attrs m → (∀ a, attrs_kept_on_failure (f a)) →
  attrs_kept_on_failure (m ≫= f).
Proof.
  intros Hm Hf s. rewrite bind_run. specialize (Hm s).
  destruct (m s) as [[a|e|p x] s']; simpl in *; [| done..].
  intros Hfail. by rewrite Hf.
Qed.

Lemma attrs_kept_keeps {A} (m : M A) :
  keeps session_attrs m → attrs_kept_on_failure m.
Proof. intros Hm s _. apply Hm. Qed.

Lemma attrs_kept_set_session c r u :
  attrs_kept_on_failure (set_session c r u).
Proof. intros s Hfail. by destruct (Hfail tt). Qed.

Lemma keeps_attrs_emit ev : keeps session_attrs (emit ev).
Proof. by intros s. Qed.
Lemma keeps_attrs_set_environ env : keeps session_attrs (set_environ env).
Proof. by intros s. Qed.
Lemma keeps_attrs_set_objects o : keeps session_attrs (set_objects o).
Proof. by intros s. Qed.
#[local] Hint Resolve keeps_attrs_emit keeps_attrs_set_environ
  keeps_attrs_set_objects : pybase.

Lemma keeps_attrs_new_object : keeps session_attrs new_object.
Proof. unfold new_object. walk. Qed.
#[local] Hint Resolve keeps_attrs_new_object attrs_kept_set_session : pybase.
#[local] Hint Extern 5 (attrs_kept_on_failure _) =>
  apply attrs_kept_keeps; solve [auto with pybase] : pybase.

(** [walk] for the attributes of the session. *)
Ltac walk_attrs :=
  repeat first
    [ solve [ auto with pybase ]
    | progress (cbv beta iota delta [lift attempt])
    | apply attrs_kept_bind; [solve [walk] | intros ? ]
    | match goal with
      | |- attrs_kept_on_failure (if ?b then _ else _) => destruct b
      | |- attrs_kept_on_failure (match ?x with _ => _ end) => destruct x
      end ].

(** X7: an [oracle_connect] that does not return, because a key of the
    configuration is missing, the driver cannot be imported, the database
    refuses the connection or the process is relaunched, leaves the three
    session attributes of the application as they were: they are assigned
    together, as the last step. *)
Theorem failed_connect_keeps_session_attributes (w : world) (s : state) :
  (∀ a, (oracle_connect w s).1 ≠ Ret a) →
  ora_con (oracle_connect w s).2 = ora_con s ∧
  ora_select_cur (oracle_connect w s).2 = ora_select_cur s ∧
  ora_update_cur (oracle_connect w s).2 = ora_update_cur s.
Proof.
  assert (attrs_kept_on_failure (oracle_connect w)) as H.
  { unfold oracle_connect, oracle_decorator, oracle_connect_body.
    walk_attrs. }
  intros Hfail. specialize (H s Hfail). unfold session_attrs in H.
  by injection H as -> -> ->.
Qed.

Lemma failed_connect_keeps_session_attributes_witness :
  ora_con
    (oracle_connect
       (with_connect (Some (DatabaseError "ORA-01017")) sample_posix)
       (started (with_connect (Some (DatabaseError "ORA-01017")) sample_posix)
          sample_env)).2
  = ora_con (started (with_connect (Some (DatabaseError "ORA-01017"))
                        sample_posix) sample_env) ∧
  ora_select_cur
    (oracle_connect
       (with_connect (Some (DatabaseError "ORA-01017")) sample_posix)
       (started (with_connect (Some (DatabaseError "ORA-01017")) sample_posix)
          sample_env)).2
  = ora_select_cur (started (with_connect (Some (DatabaseError "ORA-01017"))
                               sample_posix) sample_env) ∧
  ora_update_cur
    (oracle_connect
       (with_connect (Some (DatabaseError "ORA-01017")) sample_posix)
       (started (with_connect (Some (DatabaseError "ORA-01017")) sample_posix)
          sample_env)).2
  = ora_update_cur (started (with_connect (Some (DatabaseError "ORA-01017"))
                               sample_posix) sample_env).
Proof.
  apply (failed_connect_keeps_session_attributes
           (with_connect (Some (DatabaseError "ORA-01017")) sample_posix)
           (started (with_connect (Some (DatabaseError "ORA-01017"))
                       sample_posix) sample_env)).
  intros a. vm_compute. discriminate.
Defined.

(** One call of the close: it adds its event and keeps the attributes,
    or it raises and leaves the state as it was. *)
Lemma cursor_close_cases (cur : option handle) (s : state) :
  (∃ h s', cur = Some h ∧ cursor_close cur s = (Ret tt, s') ∧
           trace s' = trace s ++ [EvCursorClose h] ∧
           session_attrs s' = session_attrs s) ∨
  (∃ e, cursor_close cur s = (Raise e, s)).
Proof.
  unfold cursor_close. destruct cur as [h|]; [| right; by eexists].
  unfold_M. destruct (objects s !! h) as [[|]|];
    [left | right; by eexists..].
  eexists h, _. by split; [| split; [reflexivity |]].
Qed.

Lemma connection_close_cases (con : option handle) (s : state) :
  (∃ h s', con = Some h ∧ connection_close con s = (Ret tt, s') ∧
           trace s' = trace s ++ [EvConnectionClose h] ∧
           session_attrs s' = session_attrs s) ∨
  (∃ e, connection_close con s = (Raise e, s)).
Proof.
  unfold connection_close. destruct con as [h|]; [| right; by eexists].
  unfold_M. destruct (objects s !! h) as [[|]|];
    [left | right; by eexists..].
  eexists h, _. by split; [| split; [reflexivity |]].
Qed.

Lemma connection_commit_cases (con : option handle) (s : state) :
  (∃ h s', con = Some h ∧ connection_commit con s = (Ret tt, s') ∧
           trace s' = trace s ++ [EvCommit h] ∧
           session_attrs s' = session_attrs s) ∨
  (∃ e, connection_commit con s = (Raise e, s)).
Proof.
  unfold connection_commit. destruct con as [h|]; [| right; by eexists].
  unfold_M. destruct (objects s !! h) as [[|]|];
    [left | right; by eexists..].
  eexists h, _. by split; [| split; [reflexivity |]].
Qed.

(** The close without a commit, on any state. *)
Lemma oracle_disconnect_releases_prefix (s : state) :
  ∃ evs, trace (oracle_disconnect false s).2 = trace s ++ evs ∧
         evs `prefix_of` disconnect_calls false s ∧
         match (oracle_disconnect false s).1 with
         | Ret _ => evs = disconnect_calls false s ∧ length evs = 3%nat
         | Raise _ => (length evs < 3)%nat
         | Execv _ _ => False
         end.
Proof.
  unfold oracle_disconnect, disconnect_calls.
  rewrite bind_run. cbn [mret M_ret]. rewrite bind_run. cbn [get].
  rewrite bind_run.
  destruct (cursor_close_cases (ora_update_cur s) s)
    as [(u & s1 & Hu & -> & Ht1 & Ha1) | (e & ->)].
  2: { exists []. rewrite app_nil_r. split; [done |].
       split; [apply prefix_nil | simpl; lia]. }
  rewrite bind_run. cbn [get]. rewrite bind_run.
  injection Ha1 as Hc1 Hr1 Hu1. rewrite Hu. simpl olist.
  destruct (cursor_close_cases (ora_select_cur s1) s1)
    as [(r & s2 & Hr & -> & Ht2 & Ha2) | (e & ->)].
  2: { exists [EvCursorClose u]. split; [done |].
       split; [by eexists | simpl; lia]. }
  rewrite bind_run. cbn [get].
  injection Ha2 as Hc2 Hr2 Hu2. rewrite <- Hr1, Hr. simpl olist.
  destruct (connection_close_cases (ora_con s2) s2)
    as [(c & s3 & Hc & -> & Ht3 & Ha3) | (e & ->)].
  2: { exists [EvCursorClose u; EvCursorClose r]. simpl.
       rewrite Ht2, Ht1, <- app_assoc. split; [done |].
       split; [by eexists | lia]. }
  rewrite <- Hc1, <- Hc2, Hc. simpl.
  exists [EvCursorClose u; EvCursorClose r; EvConnectionClose c].
  rewrite Ht3, Ht2, Ht1, <- !app_assoc. done.
Qed.

Lemma oracle_disconnect_commit_eq (s : state) :
  oracle_disconnect true s
  = (connection_commit (ora_con s) ≫= λ _, oracle_disconnect false) s.
Proof. reflexivity. Qed.

(** X8: whatever the state of the session, the calls [oracle_disconnect]
    makes are an initial part of: the commit (if asked for), the close of
    the write cursor, of the read cursor, of the connection.  So the
    connection is never released before both cursors and nothing is
    committed after a release; the whole list is made when the close
    returns, and a call that fails ends the close without the calls
    after it. *)
Theorem disconnect_stops_at_first_failure (commit : bool) (s : state) :
  ∃ evs, trace (oracle_disconnect commit s).2 = trace s ++ evs ∧
         evs `prefix_of` disconnect_calls commit s ∧
         match (oracle_disconnect commit s).1 with
         | Ret _ => evs = disconnect_calls commit s ∧
                    length evs = (if commit then 4 else 3)%nat
         | Raise _ => (length evs < (if commit then 4 else 3))%nat
         | Execv _ _ => False
         end.
Proof.
  destruct commit; [| apply oracle_disconnect_releases_prefix].
  rewrite oracle_disconnect_commit_eq, bind_run.
  destruct (connection_commit_cases (ora_con s) s)
    as [(c & s1 & Hc & -> & Ht1 & Ha1) | (e & ->)].
  2: { exists []. rewrite app_nil_r. split; [done |].
       split; [apply prefix_nil | simpl; lia]. }
  destruct (oracle_disconnect_releases_prefix s1) as (evs & Htr & Hpre & Hres).
  assert (disconnect_calls true s = EvCommit c :: disconnect_calls false s1)
    as ->.
  { unfold disconnect_calls. injection Ha1 as -> -> ->. by rewrite Hc. }
  exists (EvCommit c :: evs). rewrite Htr, Ht1, <- app_assoc.
  split; [done |]. split; [by apply prefix_cons |].
  destruct ((oracle_disconnect false s1).1); simpl.
  - destruct Hres as [-> ->]. done.
  - lia.
  - done.
Qed.

(** ** The row factory, value by value *)






(** ** The DB command *)

(** X10: with the read cursor open and a query that succeeds, [cmd3] on
    a fetched row returns normally, leaves the session as it is, and
    prints "Test Oracle - OK" exactly when the lower-cased name of one of
    the columns that have a value in the row is "column1", and
    "Test Oracle - ERROR" otherwise, between its two log lines. *)
Theorem cmd3_reports_whether_column1_is_there (w : world) (s : state)
    (h : handle) (row : list pyval) :
  ora_select_cur s = Some h →
  objects s !! h = Some true →
  execute w = None →
  fetched w = Some row →
  ∃ s', cmd3 w s = (Ret tt, s') ∧
        session_of s' = session_of s ∧
        trace s'
        = trace s ++
          [EvLogInfo ">>>>> Begin cmd3() <<<<<";
           EvExecute h (ORA_SELECT_FROM_DUAL_SQL w);
           EvFetchone h;
           EvPrint (if decide ("column1" ∈
                                 take (length (description w) `min` length row)
                                   (column_names (description w)))
                    then "Test Oracle - OK" else "Test Oracle - ERROR");
           EvLogInfo ">>>>> End cmd3() <<<<<"].
Proof.
  intros Hcur Hopen Hexec Hrow.
  destruct s as [env c a oc osel oupd objs tr]. simpl in Hcur, Hopen.
  subst osel. unfold cmd3, cursor_execute, cursor_fetchone, emit. unfold_M.
  cbn [objects ora_select_cur]. rewrite Hopen, Hexec.
  cbn [objects ora_select_cur]. rewrite Hopen, Hrow.
  cbn [fmap option_fmap option_map].
  assert (is_Some (oracle_row_factory (description w) row !! "column1")
          ↔ "column1" ∈ take (length (description w) `min` length row)
                          (column_names (description w))) as Hiff.
  { rewrite <- elem_of_dom, dom_oracle_row_factory.
    apply elem_of_list_to_set. }
  destruct (decide ("column1" ∈ _)) as [Hin | Hin].
  - rewrite decide_True by by apply Hiff.
    eexists. split; [reflexivity |]. split; [reflexivity |].
    cbn [trace]. by rewrite <- !app_assoc.
  - rewrite decide_False by by rewrite Hiff.
    eexists. split; [reflexivity |]. split; [reflexivity |].
    cbn [trace]. by rewrite <- !app_assoc.
Qed.

Lemma cmd3_reports_whether_column1_is_there_witness :
  ∃ s', cmd3 sample_posix (connected sample_posix sample_env) = (Ret tt, s') ∧
        session_of s' = session_of (connected sample_posix sample_env) ∧
        trace s'
        = trace (connected sample_posix sample_env) ++
          [EvLogInfo ">>>>> Begin cmd3() <<<<<";
           EvExecute 1%nat (ORA_SELECT_FROM_DUAL_SQL sample_posix);
           EvFetchone 1%nat;
           EvPrint (if decide ("column1" ∈
                                 take (length (description sample_posix)
                                       `min` length [PyStr "X"])
                                   (column_names (description sample_posix)))
                    then "Test Oracle - OK" else "Test Oracle - ERROR");
           EvLogInfo ">>>>> End cmd3() <<<<<"].
Proof.
  apply (cmd3_reports_whether_column1_is_there sample_posix
           (connected sample_posix sample_env) 1%nat [PyStr "X"]).
  - vm_compute. reflexivity.
  - vm_compute. reflexivity.
  - reflexivity.
  - reflexivity.
Defined.

(** X11: with the read cursor open and a query that succeeds but returns
    no row, [cmd3] raises a [TypeError] from the membership test on
    [None]: it prints nothing, does not log its end, and leaves the
    session open as it was. *)
Theorem cmd3_on_empty_result_raises_type_error (w : world) (s : state)
    (h : handle) :
  ora_select_cur s = Some h →
  objects s !! h = Some true →
  execute w = None →
  fetched w = None →
  ∃ s', cmd3 w s
        = (Raise (TypeError "argument of type 'NoneType' is not iterable"),
           s') ∧
        session_of s' = session_of s ∧
        trace s'
        = trace s ++
          [EvLogInfo ">>>>> Begin cmd3() <<<<<";
           EvExecute h (ORA_SELECT_FROM_DUAL_SQL w);
           EvFetchone h].
Proof.
  intros Hcur Hopen Hexec Hrow.
  destruct s as [env c a oc osel oupd objs tr]. simpl in Hcur, Hopen.
  subst osel. unfold cmd3, cursor_execute, cursor_fetchone, emit. unfold_M.
  cbn [objects ora_select_cur]. rewrite Hopen, Hexec.
  cbn [objects ora_select_cur]. rewrite Hopen, Hrow.
  cbn [fmap option_fmap option_map].
  eexists. split; [reflexivity |]. split; [done |]. simpl.
  by rewrite <- !app_assoc.
Qed.

Lemma cmd3_on_empty_result_raises_type_error_witness :
  ∃ s', cmd3 sample_no_row (connected sample_no_row sample_env)
        = (Raise (TypeError "argument of type 'NoneType' is not iterable"),
           s') ∧
        session_of s' = session_of (connected sample_no_row sample_env) ∧
        trace s'
        = trace (connected sample_no_row sample_env) ++
          [EvLogInfo ">>>>> Begin cmd3() <<<<<";
           EvExecute 1%nat (ORA_SELECT_FROM_DUAL_SQL sample_no_row);
           EvFetchone 1%nat].
Proof.
  apply (cmd3_on_empty_result_raises_type_error sample_no_row
           (connected sample_no_row sample_env) 1%nat).
  - vm_compute. reflexivity.
  - vm_compute. reflexivity.
  - reflexivity.
  - reflexivity.
Defined.

(** ** The constructor *)

(** The constructor up to the parsing of the command line, for a user
    who is no administrator. *)
Lemma App_init_until_parse_args (w : world) (env : gmap string string) :
  is_admin w = false →
  App_init w (initial_state env)
  = (a ← lift (parse_args w);
     emit EvParseArgs;;
     set_args a;;
     create_logger w;;
     program ← cfg_get "main" "program";
     emit (EvLogInfo ("Start " +:+ program));;
     emit (EvLogInfo ("Command line - " +:+ repr_argv (sys_argv w))))
      (set_cfg (config_contents w)
         (emit (EvReadConfig (program_dir w +:+ "/" +:+ program_file_stem w
                              +:+ ".ini"))
            (initial_state env)).2).2.
Proof.
  intros Hadmin. unfold App_init, check_admin. rewrite Hadmin. reflexivity.
Qed.

(** X12: when [argparse] ends the program with [SystemExit] (a command
    line it rejects, or a request for help), the process exits with that
    status after the configuration file was read and before the logger
    exists: nothing is logged, no command runs and nothing is notified. *)
Theorem rejected_command_line_exits_before_logging (w : world)
    (env : gmap string string) (code : Z) :
  is_admin w = false →
  parse_args w = Err (SystemExit code) →
  program w env = Exited code ∧
  (main w (initial_state env)).1 = Raise (SystemExit code) ∧
  trace (main w (initial_state env)).2
  = [EvReadConfig (program_dir w +:+ "/" +:+ program_file_stem w +:+ ".ini")].
Proof.
  intros Hadmin Hparse.
  assert (main w (initial_state env)
          = (Raise (SystemExit code),
             (set_cfg (config_contents w)
                (emit (EvReadConfig (program_dir w +:+ "/"
                                     +:+ program_file_stem w +:+ ".ini"))
                   (initial_state env)).2).2)) as Hmain.
  { unfold main. rewrite bind_run, (App_init_until_parse_args _ _ Hadmin).
    by rewrite bind_run, Hparse. }
  unfold program. by rewrite Hmain.
Qed.

Lemma rejected_command_line_exits_before_logging_witness :
  program (with_parse_args (Err (SystemExit 2)) sample_posix) sample_env
  = Exited 2 ∧
  (main (with_parse_args (Err (SystemExit 2)) sample_posix)
     (initial_state sample_env)).1 = Raise (SystemExit 2) ∧
  trace (main (with_parse_args (Err (SystemExit 2)) sample_posix)
           (initial_state sample_env)).2
  = [EvReadConfig
       (program_dir (with_parse_args (Err (SystemExit 2)) sample_posix)
        +:+ "/" +:+
        program_file_stem (with_parse_args (Err (SystemExit 2)) sample_posix)
        +:+ ".ini")].
Proof.
  apply (rejected_command_line_exits_before_logging
           (with_parse_args (Err (SystemExit 2)) sample_posix) sample_env 2).
  - reflexivity.
  - reflexivity.
Defined.

(** X13: when the configuration has no [log_dir] in its section [main]
    (for instance because the file is missing), the constructor ends with
    a [KeyError] while it creates the logger.  The error is raised outside
    [run]: it is neither logged nor notified, no command runs, and the
    process exits with status 1. *)
Theorem missing_log_dir_fails_at_startup (w : world)
    (env : gmap string string) (a : namespace) :
  is_admin w = false →
  parse_args w = Ok a →
  cfg_lookup (config_contents w) "main" "log_dir" = None →
  program w env = Exited 1 ∧
  (∃ k, (main w (initial_state env)).1 = Raise (KeyError k)) ∧
  trace (main w (initial_state env)).2
  = [EvReadConfig (program_dir w +:+ "/" +:+ program_file_stem w +:+ ".ini");
     EvParseArgs].
Proof.
  intros Hadmin Hparse Hcfg.
  assert (∃ k s', main w (initial_state env) = (Raise (KeyError k), s') ∧
                  trace s'
                  = [EvReadConfig (program_dir w +:+ "/"
                                   +:+ program_file_stem w +:+ ".ini");
                     EvParseArgs]) as (k & s' & Hmain & Htr).
  { unfold main. rewrite bind_run, (App_init_until_parse_args _ _ Hadmin).
    rewrite bind_run, Hparse. cbn [lift mret M_ret].
    rewrite bind_run. cbn [emit]. rewrite bind_run. cbn [set_args].
    rewrite bind_run. unfold create_logger. rewrite bind_run. cbn [get].
    rewrite bind_run.
    match goal with
    | |- context [cfg_get "main" "log_dir" ?st] =>
        destruct (cfg_get_cases st "main" "log_dir")
          as [(v & Hv & _) | (k & _ & Hk)]
    end.
    - simpl in Hv. congruence.
    - rewrite Hk. by eexists _, _. }
  unfold program. rewrite Hmain. split; [done |]. split; [by exists k | done].
Qed.

Lemma missing_log_dir_fails_at_startup_witness :
  program (with_config_contents ∅ sample_posix) sample_env = Exited 1 ∧
  (∃ k, (main (with_config_contents ∅ sample_posix)
           (initial_state sample_env)).1 = Raise (KeyError k)) ∧
  trace (main (with_config_contents ∅ sample_posix)
           (initial_state sample_env)).2
  = [EvReadConfig
       (program_dir (with_config_contents ∅ sample_posix) +:+ "/" +:+
        program_file_stem (with_config_contents ∅ sample_posix) +:+ ".ini");
     EvParseArgs].
Proof.
  apply (missing_log_dir_fails_at_startup
           (with_config_contents ∅ sample_posix) sample_env
           {| ns_debug := false; ns_command := "cmd3"; ns_cmd2_arg1 := "";
              ns_pos_arg := "x" |}).
  - reflexivity.
  - reflexivity.
  - reflexivity.
Defined.

(** ** The failure boundary, when the notification works *)





Lemma keeps_cfg_cursor_close cur : keeps cfg (cursor_close cur).
Proof. unfold cursor_close. walk. Qed.
Lemma keeps_cfg_connection_close con : keeps cfg (connection_close con).
Proof. unfold connection_close. walk. Qed.
Lemma keeps_cfg_connection_commit con : keeps cfg (connection_commit con).
Proof. unfold connection_commit. walk. Qed.
#[local] Hint Resolve keeps_cfg_cursor_close keeps_cfg_connection_close
  keeps_cfg_connection_commit : pybase.

Lemma keeps_cfg_oracle_disconnect commit : keeps cfg (oracle_disconnect commit).
Proof. unfold oracle_disconnect. walk. Qed.
#[local] Hint Resolve keeps_cfg_oracle_disconnect keeps_cfg_oracle_connect
  keeps_cfg_cmd3 : pybase.




(** ** The commands that need no database *)


